(** * TripPlannerService: the mock itinerary generator

    A shallow embedding of [TripPlannerService] (services/TripPlannerService.ts)
    and of the properties its specification states about it.

    Numbers.  The form hands the service integers ([people], [budget] and
    [experienceType] come from a counter and two stepped sliders), so the
    request fields are [Z].  A JavaScript number is a binary64 double, and a
    finite double is a rational: the numbers of the service are rationals
    [Q], and an operation of the source that can round is its exact result
    rounded to the nearest double, ties to even ([Double.round]).  This is
    how [luxuryMultiplier], the nightly prices and the costs of the
    activities are computed.  [Math.floor] and [Math.round] are exact on a
    double and take it to [Z].

    Three operations of the source are written without the rounding, because
    they do not need it.  [Math.random() * 4] is exact, a multiplication by a
    power of two.  The quotient [budget / 8000] is an integer or at least
    [1/8000] away from one, and the quotient [totalCost / people] is a
    half-integer or at least [1/(2 * people)] away from one, far more than
    the error of one division: their floor and their nearest integer are
    those of the exact quotients.  The quotient [totalCost / people] is also
    the one place where a non-finite number can appear (division by zero),
    and it has its own type [number].  Sums of costs are sums of integers and
    are exact.  The doubles of the model have no largest exponent: nothing
    overflows for integers that a double holds exactly.

    Randomness.  [Math.random()] reads the next element of a stream of draws
    [nat -> Q]; the cursor into the stream is threaded through the code by a
    small state monad [Rand], in the order in which the source evaluates its
    calls.

    Exceptions.  The only expression of [generateMockTripPlan] that can throw
    is the property read [hotels[0].pricePerNight]; the generator returns a
    [completion], and [generateTripPlan] is the [try]/[catch] around it.

    Around the service.  The keys that the service stores are read and
    written in a model of [localStorage]; the handlers of the form
    (TripPlannerForm), of the page (Index) and of the key setup (ApiKeySetup)
    are functions on the state of their component.  [String.prototype.trim]
    is a parameter of the handlers that call it. *)

From Stdlib Require Import ZArith QArith Qround Qpower List String Ascii Lia
  Bool.
From Stdlib Require Import DecimalString.
Import ListNotations.

Local Open Scope string_scope.
Local Open Scope Z_scope.

(** ** Doubles *)

(** Rounding to binary64: 53 significant bits, least exponent -1074, to the
    nearest double and to the even one of two nearest. *)
Module Double.

Definition prec : Z := 53.

Definition emin : Z := -1074.

(** The magnitude of [x], not zero: the [k] with
    [2^(k-1) <= |x| < 2^k]. *)
Definition mag (x : Q) : Z :=
  let a := Z.abs (Qnum x) in
  let d := Zpos (Qden x) in
  let c := Z.log2 a - Z.log2 d in
  if d * 2 ^ Z.max 0 c <=? a * 2 ^ Z.max 0 (- c) then c + 1 else c.

(** The exponent of the last bit of the doubles of the magnitude of [x]. *)
Definition cexp (x : Q) : Z := Z.max (mag x - prec) emin.

(** The nearest integer, the even one of two nearest. *)
Definition rne (y : Q) : Z :=
  let f := Qfloor y in
  match (y - inject_Z f ?= 1 # 2)%Q with
  | Lt => f
  | Gt => f + 1
  | Eq => if Z.even f then f else f + 1
  end.

Definition round (x : Q) : Q :=
  (inject_Z (rne (x * 2 ^ (- cexp x))) * 2 ^ cexp x)%Q.

(** [a + b], [a * b] and [a / b] on doubles. *)
Definition add (a b : Q) : Q := round (a + b).

Definition mul (a b : Q) : Q := round (a * b).

Definition div (a b : Q) : Q := round (a / b).

End Double.

(** ** JavaScript primitives *)

Module JS.

(** [Math.floor] and [Math.round] on finite numbers.  [Math.round] rounds
    halves towards plus infinity. *)
Definition Math_floor (x : Q) : Z := Qfloor x.

Definition Math_round (x : Q) : Z := Qfloor (x + (1 # 2))%Q.

Definition Math_max (a b : Z) : Z := Z.max a b.

Definition Math_min (a b : Z) : Z := Z.min a b.

(** The result of a division of two integers: a finite quotient, or one of
    the non-finite numbers when the divisor is zero. *)
Inductive number : Type :=
| Finite (q : Q)
| Infinity
| NegInfinity
| NaN.

Definition div (a b : Z) : number :=
  if b =? 0 then
    if a =? 0 then NaN else if 0 <? a then Infinity else NegInfinity
  else Finite (inject_Z a / inject_Z b)%Q.

(** [Math.round] on a [number]: the non-finite numbers round to themselves. *)
Definition Math_round_number (x : number) : number :=
  match x with
  | Finite q => Finite (inject_Z (Math_round q))
  | other => other
  end.

(** [a[i]]: [None] is [undefined], for an index outside of the array. *)
Definition array_at {A : Type} (a : list A) (i : Z) : option A :=
  if i <? 0 then None else nth_error a (Z.to_nat i).

(** [a[i % a.length]] for a loop counter [i >= 0] and an array of strings;
    the default is never read when [a] is not empty. *)
Definition cyclic_at (a : list string) (i : nat) : string :=
  nth (i mod List.length a) a "".

(** The property names that every object literal inherits from
    [Object.prototype]. *)
Definition Object_prototype_keys : list string :=
  [ "constructor"; "hasOwnProperty"; "isPrototypeOf"; "propertyIsEnumerable";
    "toLocaleString"; "toString"; "valueOf"; "__proto__";
    "__defineGetter__"; "__defineSetter__"; "__lookupGetter__";
    "__lookupSetter__" ]%list.

(** [`${n}`] for an integer [n]. *)
Definition String_of_number (n : Z) : string :=
  NilZero.string_of_int (Z.to_int n).

(** What a [throw] carries: an [Error] object with its message, or any
    other value. *)
Inductive thrown : Type :=
| ErrorObject (message : string)
| OtherValue.

Inductive completion (A : Type) : Type :=
| Normal (v : A)
| Throw (e : thrown).

Arguments Normal {A} v.
Arguments Throw {A} e.

End JS.

Import JS.

(** ** The random source and its monad *)

Section Draws.

(** The successive outcomes of [Math.random()]. *)
Variable draws : nat -> Q.

(** A computation that reads draws: from the cursor before it to its value
    and the cursor after it. *)
Definition Rand (A : Type) : Type := nat -> A * nat.

Definition ret {A : Type} (a : A) : Rand A := fun n => (a, n).

Definition bind {A B : Type} (m : Rand A) (k : A -> Rand B) : Rand B :=
  fun n => let (a, n') := m n in k a n'.

Definition Math_random : Rand Q := fun n => (draws n, S n).

End Draws.

Notation "x <- m ;; k" := (bind m (fun x => k))
  (at level 61, m at next level, right associativity).

(** [for (let i = start; ...; i++) body], run [count] times on an
    accumulator (the array the body pushes to). *)
Fixpoint for_loop {A : Type} (count : nat) (i : nat)
    (body : nat -> A -> Rand A) (acc : A) : Rand A :=
  match count with
  | O => ret acc
  | S count' => acc' <- body i acc ;; for_loop count' (S i) body acc'
  end.

(** ** The data model *)

Record TripFormData : Type := mkTripFormData {
  destination : string;
  date : option Z;
  people : Z;
  budget : Z;
  experienceType : Z
}.

Record Hotel : Type := mkHotel {
  hotel_name : string;
  rating : Q;
  pricePerNight : Z;
  hotel_description : string;
  amenities : list string
}.

Record Activity : Type := mkActivity {
  name : string;
  duration : option string;
  cost : Z;
  description : string;
  category : string
}.

Record DayPlan : Type := mkDayPlan {
  day : Z;
  theme : string;
  activities : list Activity;
  estimatedCost : Z
}.

Record TripPlan : Type := mkTripPlan {
  plan_destination : string;
  totalDays : Z;
  totalCost : Z;
  costPerPerson : number;
  hotels : list Hotel;
  dayPlans : list DayPlan;
  overview : string;
  tips : list string
}.

(** The value [generateTripPlan] resolves to:
    [{ success: boolean; data?: TripPlan; error?: string }]. *)
Record GenerateResult : Type := mkGenerateResult {
  success : bool;
  data : option TripPlan;
  error : option string
}.

(** ** Browser storage *)

(** [localStorage]: the keys and their values, in the order in which the
    keys were first set.  The storage is taken to have room: [setItem] does
    not throw. *)
Module Storage.

Definition t : Type := list (string * string).

Fixpoint getItem (key : string) (st : t) : option string :=
  match st with
  | nil => None
  | (k, v) :: rest => if String.eqb key k then Some v else getItem key rest
  end.

Fixpoint setItem (key value : string) (st : t) : t :=
  match st with
  | nil => (key, value) :: nil
  | (k, v) :: rest =>
      if String.eqb key k then (k, value) :: rest
      else (k, v) :: setItem key value rest
  end.

End Storage.

(** The value of [getApiKeys]:
    [{ gemini: string | null; tavily: string | null }]. *)
Record ApiKeys : Type := mkApiKeys {
  gemini : option string;
  tavily : option string
}.

(** ** The service *)

Module TripPlannerService.

Definition API_KEY_STORAGE_KEY : string := "gemini_api_key".

Definition TAVILY_API_KEY_STORAGE_KEY : string := "tavily_api_key".

(** [saveApiKeys] and [getApiKeys] on the storage they write and read; the
    log line of [saveApiKeys] is left out. *)
Definition saveApiKeys (geminiKey tavilyKey : string) (st : Storage.t)
    : Storage.t :=
  Storage.setItem TAVILY_API_KEY_STORAGE_KEY tavilyKey
    (Storage.setItem API_KEY_STORAGE_KEY geminiKey st).

Definition getApiKeys (st : Storage.t) : ApiKeys :=
  {| gemini := Storage.getItem API_KEY_STORAGE_KEY st;
     tavily := Storage.getItem TAVILY_API_KEY_STORAGE_KEY st |}.

(** [testApiConnection]: the body of its [try] is a log line and
    [return true]. *)
Definition testApiConnection (geminiKey tavilyKey : string) : bool := true.

Section Service.

Variable draws : nat -> Q.

Definition themes : list string :=
  [ "Arrival & City Exploration";
    "Cultural Heritage Tour";
    "Adventure & Nature";
    "Local Cuisine & Markets";
    "Art & Museums";
    "Relaxation & Wellness";
    "Shopping & Entertainment";
    "Departure & Last Moments" ]%list.

Definition durations : list string :=
  [ "2 hours"; "3 hours"; "Half day"; "Full day" ]%list.

(** The object literal [activities] of [generateActivityName], as the list
    of its own keys and values. *)
Definition activity_table (destination : string)
    : list (string * list string) :=
  [ ("Arrival & City Exploration",
      [ (destination ++ " Walking Tour")%string;
        "Historic City Center Visit";
        "Local Orientation & Welcome Dinner";
        "Sunset Viewpoint Tour" ]);
    ("Cultural Heritage Tour",
      [ "Heritage Sites & Monuments";
        "Traditional Dance Performance";
        "Local Art Gallery Visit";
        "Historical Museum Tour" ]);
    ("Adventure & Nature",
      [ "Nature Hiking Trail";
        "Water Sports Adventure";
        "Wildlife Safari Tour";
        "Mountain Trekking Experience" ]);
    ("Local Cuisine & Markets",
      [ "Street Food Walking Tour";
        "Cooking Class Experience";
        "Local Market Exploration";
        "Wine/Tea Tasting Session" ]) ]%list.

Definition generic_activities : list string :=
  [ "City Tour"; "Local Experience"; "Cultural Visit"; "Scenic Tour" ]%list.

Fixpoint lookup (key : string) (table : list (string * list string))
    : option (list string) :=
  match table with
  | nil => None
  | (k, v) :: rest => if String.eqb key k then Some v else lookup key rest
  end.

(** [activities[theme] || [...]]: the candidate names of a theme that is
    not one of [Object_prototype_keys].  An array is never falsy, so the
    generic names are those of a theme that is not a key of the table.  For
    an inherited property name the source reads the inherited property, not
    a list of names; [generateActivityName] is private to the service and is
    called with the eight [themes] only, none of which is such a name (lemma
    [themes_are_not_inherited]), and these names are outside of the model. *)
Definition baseActivities (destination theme : string) : list string :=
  match lookup theme (activity_table destination) with
  | Some names => names
  | None => generic_activities
  end.

Definition generateActivityName (destination theme : string) (index : nat)
    (experienceType : Z) : string :=
  let activity := cyclic_at (baseActivities destination theme) index in
  if 75 <? experienceType then "Private " ++ activity
  else if 50 <? experienceType then "Premium " ++ activity
  else activity.

Definition generateActivityDescription (theme : string) (experienceType : Z)
    : string :=
  if experienceType <=? 25 then
    "An authentic local experience that offers great value and genuine cultural immersion."
  else if experienceType <=? 50 then
    "A well-organized experience combining comfort with authentic local culture and history."
  else if experienceType <=? 75 then
    "A premium experience with expert guides, exclusive access, and luxury amenities."
  else
    "An ultra-luxury experience with private access, world-class service, and exclusive perks.".

Definition categories : list string :=
  [ "Cultural"; "Adventure"; "Food & Drink"; "Sightseeing"; "Entertainment";
    "Wellness" ]%list.

Definition getActivityCategory (theme : string) (index : nat) : string :=
  cyclic_at categories index.

Definition generateOverview (destination : string) (days : Z)
    (experienceType : Z) : string :=
  let experienceLevel :=
    if experienceType <=? 25 then "budget-friendly adventure"
    else if experienceType <=? 50 then "comfortable exploration"
    else if experienceType <=? 75 then "premium journey"
    else "luxury expedition" in
  "Experience the best of " ++ destination ++ " in this carefully crafted "
    ++ String_of_number days ++ "-day " ++ experienceLevel
    ++ ". From iconic landmarks to hidden gems, this itinerary balances must-see attractions with authentic local experiences.".

Definition general_tips (destination : string) : list string :=
  [ ("Best time to visit " ++ destination
      ++ " is during the shoulder season for fewer crowds and better prices.")%string;
    "Download offline maps and translation apps before you go for easier navigation.";
    "Try to learn a few basic phrases in the local language - locals appreciate the effort!";
    "Pack comfortable walking shoes as you'll be doing lots of exploring on foot.";
    "Keep digital and physical copies of important documents in separate locations." ]%list.

Definition generateTips (destination : string) (experienceType : Z)
    : list string :=
  let tips := general_tips destination in
  let tips :=
    if 50 <? experienceType then
      ((tips
        ++ ["Consider hiring a private guide for personalized insights and skip-the-line access."])
        ++ ["Make restaurant reservations in advance, especially for popular or high-end establishments."])%list
    else tips in
  let tips :=
    if 75 <? experienceType then
      (tips
        ++ ["Arrange for private airport transfers and concierge services for a seamless experience."])%list
    else tips in
  tips.

(** [totalDays], [luxuryMultiplier], [hotels] and [activityCount] are the
    local constants of [generateMockTripPlan] under their names. *)
Definition totalDays_of (budget : Z) : Z :=
  Math_min (Math_max (Math_floor (inject_Z budget / 8000)%Q) 3) 14.

Definition luxuryMultiplier (experienceType : Z) : Q :=
  Double.add 1 (Double.div (inject_Z experienceType) 100).

Definition hotels_of (destination : string) (experienceType : Z)
    : list Hotel :=
  let hotels : list Hotel := nil in
  if experienceType <=? 25 then
    (hotels ++
     [ {| hotel_name := (destination ++ " Backpacker's Haven")%string;
          rating := (41 # 10)%Q;
          pricePerNight :=
            Math_round (Double.mul 1500 (luxuryMultiplier experienceType));
          hotel_description :=
            "Clean, comfortable hostel with great social atmosphere and local vibes.";
          amenities :=
            [ "Free WiFi"; "Shared Kitchen"; "Common Area"; "Laundry";
              "24/7 Reception" ] |} ])%list
  else if experienceType <=? 50 then
    (hotels ++
     [ {| hotel_name := (destination ++ " Comfort Inn & Suites")%string;
          rating := (43 # 10)%Q;
          pricePerNight :=
            Math_round (Double.mul 3500 (luxuryMultiplier experienceType));
          hotel_description :=
            "Modern hotel offering great value with excellent amenities and service.";
          amenities :=
            [ "Free WiFi"; "Breakfast"; "Gym"; "Pool"; "Room Service";
              "Parking" ] |} ])%list
  else if experienceType <=? 75 then
    (hotels ++
     [ {| hotel_name := (destination ++ " Premium Resort")%string;
          rating := (46 # 10)%Q;
          pricePerNight :=
            Math_round (Double.mul 7500 (luxuryMultiplier experienceType));
          hotel_description :=
            "Upscale resort with premium amenities and exceptional service.";
          amenities :=
            [ "Free WiFi"; "Spa"; "Fine Dining"; "Concierge"; "Pool";
              "Beach Access" ] |} ])%list
  else
    (hotels ++
     [ {| hotel_name := ("The Luxury " ++ destination ++ " Collection")%string;
          rating := (49 # 10)%Q;
          pricePerNight :=
            Math_round (Double.mul 15000 (luxuryMultiplier experienceType));
          hotel_description :=
            "Ultra-luxury hotel offering world-class amenities and personalized service.";
          amenities :=
            [ "Butler Service"; "Private Pool"; "Michelin Star Dining"; "Spa";
              "Helicopter Tours"; "Private Beach" ] |} ])%list.

Definition activityCount_of (experienceType : Z) : nat :=
  if experienceType <=? 25 then 3%nat
  else if experienceType <=? 75 then 4%nat
  else 5%nat.

(** The body of the inner loop: one [activities.push({...})].  The fields of
    the object literal are evaluated in order, so the draw for [duration]
    comes before the draw for [cost]. *)
Definition push_activity (destination theme : string) (experienceType : Z)
    (i : nat) (activities : list Activity) : Rand (list Activity) :=
  r_duration <- Math_random draws ;;
  r_cost <- Math_random draws ;;
  ret (activities ++
       [ {| name := generateActivityName destination theme i experienceType;
            duration := array_at durations (Math_floor (r_duration * 4)%Q);
            cost :=
              Math_round
                (Double.mul (Double.add 500 (Double.mul r_cost 3000))
                   (luxuryMultiplier experienceType));
            description := generateActivityDescription theme experienceType;
            category := getActivityCategory theme i |} ])%list.

(** The body of the outer loop: one day of the itinerary. *)
Definition push_day (destination : string) (experienceType : Z)
    (day : nat) (dayPlans : list DayPlan) : Rand (list DayPlan) :=
  let theme := cyclic_at themes (day - 1)%nat in
  let activityCount := activityCount_of experienceType in
  activities <-
    for_loop activityCount 0%nat
      (push_activity destination theme experienceType) nil ;;
  let estimatedCost :=
    fold_left (fun sum activity => sum + cost activity) activities 0 in
  ret (dayPlans ++
       [ {| day := Z.of_nat day;
            theme := theme;
            activities := activities;
            estimatedCost := estimatedCost |} ])%list.

(** The generator.  Its constant [budgetPerDay] is computed and never read,
    and is left out; [formData.date] is not among the fields it takes from
    the request. *)
Definition generateMockTripPlan (formData : TripFormData)
    : Rand (completion TripPlan) :=
  let destination := destination formData in
  let people := people formData in
  let budget := budget formData in
  let experienceType := experienceType formData in
  let totalDays := totalDays_of budget in
  let hotels := hotels_of destination experienceType in
  dayPlans <-
    for_loop (Z.to_nat totalDays) 1%nat
      (push_day destination experienceType) nil ;;
  match array_at hotels 0 with
  | None =>
      ret (Throw (ErrorObject
        "Cannot read properties of undefined (reading 'pricePerNight')"))
  | Some hotel =>
      let totalCost :=
        fold_left (fun sum day => sum + estimatedCost day) dayPlans 0
        + pricePerNight hotel * totalDays in
      ret (Normal
        {| plan_destination := destination;
           totalDays := totalDays;
           totalCost := totalCost;
           costPerPerson := Math_round_number (JS.div totalCost people);
           hotels := hotels;
           dayPlans := dayPlans;
           overview := generateOverview destination totalDays experienceType;
           tips := generateTips destination experienceType |})
  end.

(** The [try]/[catch] of [generateTripPlan] around the generator.  The log
    line and the fixed delay before the call do not touch the result. *)
Definition generateTripPlan (formData : TripFormData) : Rand GenerateResult :=
  tripPlan <- generateMockTripPlan formData ;;
  match tripPlan with
  | Normal tripPlan =>
      ret {| success := true; data := Some tripPlan; error := None |}
  | Throw e =>
      ret {| success := false;
             data := None;
             error := Some match e with
                           | ErrorObject message => message
                           | OtherValue => "Failed to generate trip plan"
                           end |}
  end.

End Service.

End TripPlannerService.

Import TripPlannerService.

(** ** Vocabulary of the specification *)

(** [sum(x for x in l)]. *)
Definition sum_Z (l : list Z) : Z := fold_right Z.add 0 l.

(** [clamp(x, lo, hi)]. *)
Definition clamp (x lo hi : Z) : Z :=
  if x <? lo then lo else if hi <? x then hi else x.

(** The four hotel bands and their base nightly prices, on the experience
    levels [0..100] of the data model. *)
Inductive Band : Type := BudgetTier | ComfortTier | PremiumTier | LuxuryTier.

Definition band (e : Z) : option Band :=
  if (e <? 0) || (100 <? e) then None
  else if e <=? 25 then Some BudgetTier
  else if e <=? 50 then Some ComfortTier
  else if e <=? 75 then Some PremiumTier
  else Some LuxuryTier.

Definition basePrice (b : Band) : Z :=
  match b with
  | BudgetTier => 1500
  | ComfortTier => 3500
  | PremiumTier => 7500
  | LuxuryTier => 15000
  end.

(** [generates draws formData n plan]: started with the cursor at draw [n],
    the generator returns [plan]. *)
Definition generates (draws : nat -> Q) (formData : TripFormData) (n : nat)
    (plan : TripPlan) : Prop :=
  fst (generateMockTripPlan draws formData n) = Normal plan.

(** A property of every activity of every day of a plan. *)
Definition every_activity (P : Activity -> Prop) (plan : TripPlan) : Prop :=
  Forall (fun d => Forall P (activities d)) (dayPlans plan).

(** The names of the activities of a day, in order, and the candidates of
    its theme for as many slots, [candidates[slot mod length]]. *)
Definition day_names (d : DayPlan) : list string := map name (activities d).

Definition candidate_names (dest : string) (d : DayPlan) : list string :=
  map (cyclic_at (baseActivities dest (theme d)))
      (seq 0 (List.length (activities d))).

(** The prefix of an activity name: "Private " above 75, otherwise
    "Premium " above 50, otherwise none. *)
Definition tier_prefix (e : Z) : string :=
  if 75 <? e then "Private " else if 50 <? e then "Premium " else "".

(** A name that carries one of the two prefixes and not the other. *)
Definition starts_private_only (a : Activity) : Prop :=
  String.prefix "Private " (name a) = true
  /\ String.prefix "Premium " (name a) = false.

Definition starts_premium_only (a : Activity) : Prop :=
  String.prefix "Premium " (name a) = true
  /\ String.prefix "Private " (name a) = false.

(** [Forall_from Q i xs]: [Q (i + k) x] for the [k]-th element [x] of [xs]. *)
Fixpoint Forall_from {A : Type} (Q : nat -> A -> Prop) (i : nat)
    (xs : list A) : Prop :=
  match xs with
  | nil => True
  | x :: rest => Q i x /\ Forall_from Q (S i) rest
  end.

(** What the inner loop pushes at slot [i] of a day with theme [th]. *)
Definition activity_at (draws : nat -> Q) (dest th : string) (e : Z)
    (i : nat) (a : Activity) : Prop :=
  name a = generateActivityName dest th i e
  /\ (exists k, duration a = array_at durations (Math_floor (draws k * 4)%Q))
  /\ description a = generateActivityDescription th e
  /\ category a = getActivityCategory th i.

(** What the outer loop pushes for day [d]. *)
Definition day_at (draws : nat -> Q) (dest : string) (e : Z)
    (d : nat) (p : DayPlan) : Prop :=
  day p = Z.of_nat d
  /\ theme p = cyclic_at themes (d - 1)%nat
  /\ List.length (activities p) = activityCount_of e
  /\ Forall_from (activity_at draws dest (theme p) e) 0%nat (activities p)
  /\ estimatedCost p = sum_Z (map cost (activities p)).


(** Inputs of the examples. *)
Definition quarter_draws : nat -> Q := fun n => (Z.of_nat (n mod 4) # 4)%Q.

Definition paris : TripFormData :=
  {| destination := "Paris"; date := None; people := 2; budget := 40000;
     experienceType := 25 |}.

Definition request (e : Z) : TripFormData :=
  {| destination := "Bali"; date := Some 1798761600000; people := 3;
     budget := 64000; experienceType := e |}.

(** ** The form *)

Module TripPlannerForm.

Record ExperienceType : Type := mkExperienceType {
  value : Z;
  label : string;
  description : string
}.

(** The table [experienceTypes], without the icons. *)
Definition experienceTypes : list ExperienceType :=
  [ mkExperienceType 0 "Budget Explorer" "Backpacker vibes, local experiences";
    mkExperienceType 25 "Comfort Traveler" "Mix of comfort and adventure";
    mkExperienceType 50 "Premium Explorer" "Higher-end experiences";
    mkExperienceType 75 "Luxury Seeker" "Exclusive, luxury experiences";
    mkExperienceType 100 "Ultra Luxury"
      "No expense spared, ultimate luxury" ]%list.

(** [a.reduce(f)] without an initial value, on an array that is not empty:
    the fold starts from the first element.  ([None] is the [TypeError] of
    an empty array.) *)
Definition reduce {A : Type} (f : A -> A -> A) (a : list A) : option A :=
  match a with
  | nil => None
  | first :: rest => Some (fold_left f rest first)
  end.

Definition closer (experienceType : Z) (prev curr : ExperienceType)
    : ExperienceType :=
  if Z.abs (value curr - experienceType) <? Z.abs (value prev - experienceType)
  then curr else prev.

Definition getCurrentExperienceType (formData : TripFormData)
    : option ExperienceType :=
  reduce (closer (experienceType formData)) experienceTypes.

(** The state of the form when it is mounted. *)
Definition initialFormData : TripFormData :=
  {| destination := ""; date := None; people := 2; budget := 50000;
     experienceType := 25 |}.

(** The handlers of the controls, each as the [setFormData] it makes. *)
Inductive FormEvent : Type :=
| DestinationChange (text : string)
| DateSelect (when : option Z)
| DecrementPeople
| IncrementPeople
| BudgetChange (amount : Z)
| ExperienceChange (level : Z).

Definition handle (formData : TripFormData) (ev : FormEvent) : TripFormData :=
  match ev with
  | DestinationChange text =>
      mkTripFormData text (date formData) (people formData)
        (budget formData) (experienceType formData)
  | DateSelect when =>
      mkTripFormData (destination formData) when (people formData)
        (budget formData) (experienceType formData)
  | DecrementPeople =>
      if 1 <? people formData then
        mkTripFormData (destination formData) (date formData)
          (people formData - 1) (budget formData) (experienceType formData)
      else formData
  | IncrementPeople =>
      if people formData <? 20 then
        mkTripFormData (destination formData) (date formData)
          (people formData + 1) (budget formData) (experienceType formData)
      else formData
  | BudgetChange amount =>
      mkTripFormData (destination formData) (date formData)
        (people formData) amount (experienceType formData)
  | ExperienceChange level =>
      mkTripFormData (destination formData) (date formData)
        (people formData) (budget formData) level
  end.

(** The state of the form after a sequence of events. *)
Definition handle_all (formData : TripFormData) (evs : list FormEvent)
    : TripFormData :=
  fold_left handle evs formData.

(** What [handleSubmit] does: a destructive toast with this description, or
    the call [onPlanTrip(formData)]. *)
Inductive SubmitEffect : Type :=
| MissingInformation (description : string)
| OnPlanTrip (data : TripFormData).

Section Submit.

(** [String.prototype.trim], of the platform. *)
Variable trim : string -> string.

Definition handleSubmit (formData : TripFormData) : SubmitEffect :=
  if String.eqb (trim (destination formData)) "" then
    MissingInformation "Please enter a destination"
  else
    match date formData with
    | None => MissingInformation "Please select a travel date"
    | Some _ => OnPlanTrip formData
    end.

End Submit.

End TripPlannerForm.

(** ** The page *)

Module Index.

Record PageState : Type := mkPageState {
  hasApiKeys : bool;
  isGeneratingPlan : bool;
  tripPlan : option TripPlan;
  formData : option TripFormData
}.

(** The toasts of [handlePlanTrip], by title: "Trip Plan Ready!" with its
    description, and the destructive "Planning Failed" with its own. *)
Inductive Toast : Type :=
| TripPlanReady (description : string)
| PlanningFailed (description : string).

(** What the page renders below the hero: the results, or the form with its
    [isLoading] flag. *)
Inductive View : Type :=
| ResultsView (tripPlan : TripPlan) (formData : TripFormData)
| FormView (isLoading : bool).

Definition render (st : PageState) : View :=
  match tripPlan st, formData st with
  | Some plan, Some data => ResultsView plan data
  | _, _ => FormView (isGeneratingPlan st)
  end.

(** The hero section is rendered when there is no plan. *)
Definition heroShown (st : PageState) : bool :=
  match tripPlan st with
  | Some _ => false
  | None => true
  end.

Definition handlePlanNewTrip (st : PageState) : PageState :=
  {| hasApiKeys := hasApiKeys st;
     isGeneratingPlan := isGeneratingPlan st;
     tripPlan := None;
     formData := None |}.

Section Page.

Variable draws : nat -> Q.

(** [handlePlanTrip] on the submitted [data]: the state updates in their
    order, with the toast that is shown.  [generateTripPlan] does not reject, so the [catch] of the
    handler has nothing to catch; its [finally] is the last update. *)
Definition handlePlanTrip (submitted : TripFormData) (st : PageState)
    : Rand (PageState * list Toast) :=
  let st :=
    {| hasApiKeys := hasApiKeys st; isGeneratingPlan := true;
       tripPlan := tripPlan st; formData := formData st |} in
  let st :=
    {| hasApiKeys := hasApiKeys st; isGeneratingPlan := isGeneratingPlan st;
       tripPlan := tripPlan st; formData := Some submitted |} in
  result <- generateTripPlan draws submitted ;;
  let (st, toasts) :=
    match success result, data result with
    | true, Some plan =>
        ({| hasApiKeys := hasApiKeys st;
            isGeneratingPlan := isGeneratingPlan st;
            tripPlan := Some plan;
            formData := formData st |},
         [ TripPlanReady
             ("Your " ++ destination submitted ++ " adventure has been planned!") ]
         %list)
    | _, _ =>
        (st,
         [ PlanningFailed
             match error result with
             | Some (String c message) => String c message
             | _ => "Unable to generate trip plan. Please try again."
             end ]%list)
    end in
  ret ({| hasApiKeys := hasApiKeys st; isGeneratingPlan := false;
          tripPlan := tripPlan st; formData := formData st |}, toasts).

End Page.

End Index.

(** ** The key setup *)

Module ApiKeySetup.

(** The toasts of the component, by title. *)
Inductive Toast : Type :=
| MissingApiKeys
| ApiKeysSaved
| InvalidApiKeys
| DemoModeActivated.

(** The outcome of a handler: the storage after it, its toast, and whether
    [onSetupComplete] was called. *)
Record Outcome : Type := mkOutcome {
  storage : Storage.t;
  toast : Toast;
  setupComplete : bool
}.

Section Setup.

Variable trim : string -> string.

(** [handleSaveKeys] on the keys typed in the two fields.  Neither the
    connection test nor the save throws, so the [catch] is left out; the
    flag [isTestingConnection], set before and cleared after, is not part of
    the outcome. *)
Definition handleSaveKeys (geminiKey tavilyKey : string) (st : Storage.t)
    : Outcome :=
  if String.eqb (trim geminiKey) "" || String.eqb (trim tavilyKey) "" then
    {| storage := st; toast := MissingApiKeys; setupComplete := false |}
  else
    let isValid := testApiConnection geminiKey tavilyKey in
    if isValid then
      {| storage := saveApiKeys geminiKey tavilyKey st;
         toast := ApiKeysSaved;
         setupComplete := true |}
    else
      {| storage := st; toast := InvalidApiKeys; setupComplete := false |}.

End Setup.

Definition handleSkipSetup (st : Storage.t) : Outcome :=
  {| storage := saveApiKeys "demo-gemini-key" "demo-tavily-key" st;
     toast := DemoModeActivated;
     setupComplete := true |}.

End ApiKeySetup.

(** ** The plan in closed form *)

(** The activity in slot [i] of a day with theme [th], when its two draws
    are those at [k] and [k + 1]. *)
Definition activity_of (draws : nat -> Q) (dest th : string) (e : Z)
    (i k : nat) : Activity :=
  {| name := generateActivityName dest th i e;
     duration := array_at durations (Math_floor (draws k * 4)%Q);
     cost :=
       Math_round
         (Double.mul (Double.add 500 (Double.mul (draws (S k)) 3000))
            (luxuryMultiplier e));
     description := generateActivityDescription th e;
     category := getActivityCategory th i |}.

(** Day [d], when the first draw of the day is at [k]: its activities take
    two draws each, in the order of the slots. *)
Definition day_from (draws : nat -> Q) (dest : string) (e : Z) (d k : nat)
    : DayPlan :=
  let th := cyclic_at themes (d - 1)%nat in
  let acts :=
    map (fun i => activity_of draws dest th e i (2 * i + k)%nat)
        (seq 0 (activityCount_of e)) in
  {| day := Z.of_nat d;
     theme := th;
     activities := acts;
     estimatedCost := sum_Z (map cost acts) |}.

(** Day [d] of a plan whose first draw is at [n]: the days before it have
    taken [2 * activityCount] draws each. *)
Definition day_of (draws : nat -> Q) (dest : string) (e : Z) (n d : nat)
    : DayPlan :=
  day_from draws dest e d (2 * activityCount_of e * (d - 1) + n)%nat.

Definition days_of (draws : nat -> Q) (f : TripFormData) (n : nat)
    : list DayPlan :=
  map (day_of draws (destination f) (experienceType f) n)
      (seq 1 (Z.to_nat (totalDays_of (budget f)))).

(** The number of draws a call reads. *)
Definition draws_read (f : TripFormData) : nat :=
  (2 * activityCount_of (experienceType f)
   * Z.to_nat (totalDays_of (budget f)))%nat.

(** A [trim] for the examples: it removes the spaces at both ends. *)
Fixpoint trim_start (s : string) : string :=
  match s with
  | String " " rest => trim_start rest
  | _ => s
  end.

Fixpoint trim_end (s : string) : string :=
  match s with
  | "" => ""
  | String c rest =>
      match trim_end rest with
      | "" => if Ascii.eqb c " " then "" else String c ""
      | rest' => String c rest'
      end
  end.

Definition trim_spaces (s : string) : string := trim_end (trim_start s).

(** ** Arithmetic of the primitives *)

Lemma fold_left_add {A : Type} (f : A -> Z) (l : list A) (a : Z) :
  fold_left (fun sum x => sum + f x) l a = a + sum_Z (map f l).
Proof.
  revert a; induction l as [|x l IH]; intros a; simpl.
  - lia.
  - rewrite IH. lia.
Qed.

Lemma Math_floor_div (a : Z) (d : positive) :
  Math_floor (inject_Z a / inject_Z (Zpos d))%Q = a / Zpos d.
Proof.
  unfold Math_floor, Qdiv, Qmult, Qinv, inject_Z, Qfloor.
  cbn [Qnum Qden]. f_equal; lia.
Qed.

Lemma Math_round_div (a : Z) (d : positive) :
  Math_round (inject_Z a / inject_Z (Zpos d))%Q
  = (2 * a + Zpos d) / (2 * Zpos d).
Proof.
  unfold Math_round, Qdiv, Qplus, Qmult, Qinv, inject_Z, Qfloor.
  cbn [Qnum Qden]. f_equal; lia.
Qed.

Lemma totalDays_of_clamp (b : Z) : totalDays_of b = clamp (b / 8000) 3 14.
Proof.
  unfold totalDays_of, clamp, Math_min, Math_max.
  change 8000%Q with (inject_Z 8000).
  rewrite Math_floor_div.
  destruct (Z.ltb_spec (b / 8000) 3); destruct (Z.ltb_spec 14 (b / 8000)); lia.
Qed.

Lemma totalDays_of_range (b : Z) : 3 <= totalDays_of b <= 14.
Proof.
  unfold totalDays_of, Math_min, Math_max. lia.
Qed.

Lemma Math_round_nearest (a : Z) (d : positive) :
  let c := Math_round (inject_Z a / inject_Z (Zpos d))%Q in
  (2 * c - 1) * Zpos d <= 2 * a < (2 * c + 1) * Zpos d.
Proof.
  cbv zeta. rewrite Math_round_div.
  pose proof (Z.div_mod (2 * a + Zpos d) (2 * Zpos d)) as E.
  pose proof (Z.mod_pos_bound (2 * a + Zpos d) (2 * Zpos d)) as B.
  nia.
Qed.

(** The exact product of a base price that is a multiple of 100 and of
    [1 + e/100] is an integer. *)
Lemma Math_round_multiplier (k e : Z) :
  Math_round (inject_Z (100 * k) * (1 + inject_Z e / 100))%Q = k * (100 + e).
Proof.
  unfold Math_round, Qdiv, Qplus, Qmult, Qinv, inject_Z, Qfloor.
  cbn [Qnum Qden].
  symmetry. apply Z.div_unique with (r := 100); lia.
Qed.

Lemma Math_round_mono (x y : Q) :
  (x <= y)%Q -> Math_round x <= Math_round y.
Proof.
  intros H. unfold Math_round. apply Qfloor_resp_le.
  apply Qplus_le_l. exact H.
Qed.

(** ** Arithmetic of doubles *)

Section Rounding.

Local Open Scope Q_scope.

Lemma two_pos (k : Z) : 0 < 2 ^ k.
Proof. apply Qpower_0_lt. reflexivity. Qed.

Lemma two_plus (a b : Z) : 2 ^ (a + b) == 2 ^ a * 2 ^ b.
Proof. apply Qpower_plus. discriminate. Qed.

Lemma two_le (a b : Z) : (a <= b)%Z -> 2 ^ a <= 2 ^ b.
Proof. intros H. apply Qpower_le_compat_l; [exact H | discriminate]. Qed.

Lemma two_Z (k : Z) : (0 <= k)%Z -> inject_Z (2 ^ k) == 2 ^ k.
Proof. intros H. apply (Zpower_Qpower 2 k H). Qed.

Lemma two_cancel (k : Z) : 2 ^ k * 2 ^ (- k) == 1.
Proof. rewrite <- two_plus, Z.add_opp_diag_r. reflexivity. Qed.

(** [Double.mag] is the magnitude of a positive number. *)
Lemma mag_spec (x : Q) :
  0 < x -> 2 ^ (Double.mag x - 1) <= x /\ x < 2 ^ Double.mag x.
Proof.
  destruct x as [n d]. intros Hx.
  assert (Hn : (0 < n)%Z) by (unfold Qlt in Hx; cbn in Hx; lia).
  unfold Double.mag. cbn [Qnum Qden]. rewrite (Z.abs_eq n) by lia.
  set (la := Z.log2 n). set (ld := Z.log2 (Z.pos d)).
  destruct (Z.log2_spec n Hn) as (Hn1 & Hn2). fold la in Hn1, Hn2.
  destruct (Z.log2_spec (Z.pos d) (Pos2Z.is_pos d)) as (Hd1 & Hd2).
  fold ld in Hd1, Hd2.
  assert (Hla : (0 <= la)%Z) by apply Z.log2_nonneg.
  assert (Hld : (0 <= ld)%Z) by apply Z.log2_nonneg.
  assert (Qn1 : 2 ^ la <= inject_Z n).
  { rewrite <- two_Z by lia. rewrite <- Zle_Qle. exact Hn1. }
  assert (Qn2 : inject_Z n < 2 ^ (la + 1)).
  { rewrite <- two_Z by lia. rewrite <- Zlt_Qlt.
    replace (la + 1)%Z with (Z.succ la) by lia. exact Hn2. }
  assert (Qd1 : 2 ^ ld <= inject_Z (Z.pos d)).
  { rewrite <- two_Z by lia. rewrite <- Zle_Qle. exact Hd1. }
  assert (Qd2 : inject_Z (Z.pos d) < 2 ^ (ld + 1)).
  { rewrite <- two_Z by lia. rewrite <- Zlt_Qlt.
    replace (ld + 1)%Z with (Z.succ ld) by lia. exact Hd2. }
  assert (Qd0 : 0 < inject_Z (Z.pos d)) by reflexivity.
  set (c := (la - ld)%Z).
  assert (Hfrac : n # d == inject_Z n / inject_Z (Z.pos d))
    by apply Qmake_Qdiv.
  assert (Hup : n # d < 2 ^ (c + 1)).
  { rewrite Hfrac. apply Qlt_shift_div_r; [exact Qd0|].
    apply Qlt_le_trans with (1 := Qn2).
    assert (E : 2 ^ (la + 1) == 2 ^ (c + 1) * 2 ^ ld).
    { rewrite <- two_plus. replace (c + 1 + ld)%Z with (la + 1)%Z
        by (unfold c; lia). reflexivity. }
    rewrite E. apply Qmult_le_l; [apply two_pos | exact Qd1]. }
  assert (Hlo : 2 ^ (c - 1) <= n # d).
  { rewrite Hfrac. apply Qle_shift_div_l; [exact Qd0|].
    apply Qle_trans with (2 := Qn1).
    assert (E : 2 ^ la == 2 ^ (c - 1) * 2 ^ (ld + 1)).
    { rewrite <- two_plus. replace (c - 1 + (ld + 1))%Z with la
        by (unfold c; lia). reflexivity. }
    rewrite E. apply Qmult_le_l; [apply two_pos|].
    apply Qlt_le_weak. exact Qd2. }
  assert (Htest : (Z.pos d * 2 ^ Z.max 0 c <= n * 2 ^ Z.max 0 (- c))%Z
                  <-> 2 ^ c <= n # d).
  { rewrite Zle_Qle, !inject_Z_mult, !two_Z by lia.
    rewrite Hfrac. split; intros H.
    - apply Qle_shift_div_l; [exact Qd0|].
      apply (Qmult_le_r _ _ (2 ^ Z.max 0 (- c))); [apply two_pos|].
      rewrite <- Qmult_assoc, (Qmult_comm (inject_Z (Z.pos d))),
        Qmult_assoc, <- two_plus.
      replace (c + Z.max 0 (- c))%Z with (Z.max 0 c) by lia.
      rewrite Qmult_comm. exact H.
    - assert (H' : 2 ^ c * inject_Z (Z.pos d) <= inject_Z n).
      { apply (Qmult_le_r _ _ (/ inject_Z (Z.pos d)));
          [apply Qinv_lt_0_compat; exact Qd0|].
        rewrite <- Qmult_assoc, Qmult_inv_r, Qmult_1_r by discriminate.
        exact H. }
      apply (Qmult_le_r _ _ (2 ^ Z.max 0 (- c))) in H'; [|apply two_pos].
      rewrite <- Qmult_assoc, (Qmult_comm (inject_Z (Z.pos d))),
        Qmult_assoc, <- two_plus in H'.
      replace (c + Z.max 0 (- c))%Z with (Z.max 0 c) in H' by lia.
      rewrite Qmult_comm. exact H'. }
  destruct (Z.leb_spec (Z.pos d * 2 ^ Z.max 0 c) (n * 2 ^ Z.max 0 (- c)))
    as [T|T].
  - replace (c + 1 - 1)%Z with c by lia. split; [apply Htest, T | exact Hup].
  - split; [exact Hlo|]. apply Qnot_le_lt. intros H. apply Htest in H. lia.
Qed.

Lemma mag_mono (x y : Q) :
  0 < x -> x <= y -> (Double.mag x <= Double.mag y)%Z.
Proof.
  intros Hx Hxy.
  destruct (mag_spec x Hx) as (Hx1 & _).
  destruct (mag_spec y (Qlt_le_trans _ _ _ Hx Hxy)) as (_ & Hy2).
  assert (H : 2 ^ (Double.mag x - 1) < 2 ^ Double.mag y).
  { eapply Qle_lt_trans; [exact Hx1|]. eapply Qle_lt_trans; eassumption. }
  apply Qpower_lt_compat_l_inv in H; [lia | reflexivity].
Qed.

Lemma rne_bounds (y : Q) :
  (Qfloor y <= Double.rne y <= Qfloor y + 1)%Z.
Proof.
  unfold Double.rne. destruct (y - inject_Z (Qfloor y) ?= 1 # 2);
    [destruct (Z.even (Qfloor y))| |]; lia.
Qed.

Lemma rne_mono (y1 y2 : Q) :
  y1 <= y2 -> (Double.rne y1 <= Double.rne y2)%Z.
Proof.
  intros H. pose proof (Qfloor_resp_le _ _ H) as Hf.
  pose proof (rne_bounds y1) as B1. pose proof (rne_bounds y2) as B2.
  destruct (Z.eq_dec (Qfloor y1) (Qfloor y2)) as [E|E]; [|lia].
  unfold Double.rne in *. rewrite E in *.
  assert (Hfrac : y1 - inject_Z (Qfloor y2) <= y2 - inject_Z (Qfloor y2)).
  { apply Qplus_le_l. exact H. }
  destruct (y1 - inject_Z (Qfloor y2) ?= 1 # 2) eqn:C1;
    destruct (y2 - inject_Z (Qfloor y2) ?= 1 # 2) eqn:C2;
    try lia; try (destruct (Z.even (Qfloor y2)); lia); exfalso.
  - apply Qeq_alt in C1. apply Qlt_alt in C2. rewrite C1 in Hfrac.
    exact (Qlt_not_le _ _ C2 Hfrac).
  - apply Qgt_alt in C1. apply Qeq_alt in C2. rewrite C2 in Hfrac.
    exact (Qlt_not_le _ _ C1 Hfrac).
  - apply Qgt_alt in C1. apply Qlt_alt in C2.
    apply (Qlt_not_le _ _ C1). apply Qle_trans with (1 := Hfrac).
    apply Qlt_le_weak. exact C2.
Qed.

Lemma rne_Z (z : Z) : Double.rne (inject_Z z) = z.
Proof.
  unfold Double.rne. rewrite Qfloor_Z.
  assert (H : inject_Z z - inject_Z z < 1 # 2).
  { unfold Qminus. rewrite Qplus_opp_r. reflexivity. }
  destruct (inject_Z z - inject_Z z ?= 1 # 2) eqn:C; [| reflexivity |].
  - apply Qeq_alt in C. rewrite C in H. discriminate H.
  - apply Qgt_alt in C. exfalso. exact (Qlt_irrefl _ (Qlt_trans _ _ _ H C)).
Qed.

Lemma rne_le_Z (y : Q) (z : Z) : y <= inject_Z z -> (Double.rne y <= z)%Z.
Proof. intros H. rewrite <- (rne_Z z). apply rne_mono, H. Qed.

Lemma rne_ge_Z (y : Q) (z : Z) : inject_Z z <= y -> (z <= Double.rne y)%Z.
Proof. intros H. rewrite <- (rne_Z z). apply rne_mono, H. Qed.

Lemma round_nonneg (x : Q) : 0 <= x -> 0 <= Double.round x.
Proof.
  intros H. unfold Double.round. apply Qmult_le_0_compat.
  - change 0 with (inject_Z 0). rewrite <- Zle_Qle. apply rne_ge_Z.
    apply Qmult_le_0_compat; [exact H | apply Qlt_le_weak, two_pos].
  - apply Qlt_le_weak, two_pos.
Qed.

Lemma round_zero (x : Q) : x == 0 -> Double.round x == 0.
Proof.
  intros H. unfold Double.round.
  assert (E : Double.rne (x * 2 ^ (- Double.cexp x)) = 0%Z).
  { assert (Z0 : inject_Z 0 == 0 * 2 ^ (- Double.cexp x))
      by (symmetry; apply Qmult_0_l).
    apply Z.le_antisymm.
    - apply rne_le_Z. rewrite Z0. apply Qmult_le_r; [apply two_pos|].
      apply Qle_lteq. right. exact H.
    - apply rne_ge_Z. rewrite Z0. apply Qmult_le_r; [apply two_pos|].
      apply Qle_lteq. right. symmetry. exact H. }
  rewrite E. apply Qmult_0_l.
Qed.

(** Rounding to a double keeps the order of the numbers that are not
    negative. *)
Lemma round_mono (x y : Q) :
  0 <= x -> x <= y -> Double.round x <= Double.round y.
Proof.
  intros Hx Hxy.
  destruct (Qlt_le_dec 0 x) as [Hpos|Hzero].
  2: { assert (E : x == 0) by (apply Qle_antisym; assumption).
       rewrite (round_zero x E). apply round_nonneg.
       apply Qle_trans with (1 := Hx). exact Hxy. }
  assert (Hy : 0 < y) by (eapply Qlt_le_trans; eassumption).
  pose proof (mag_mono x y Hpos Hxy) as Hmag.
  destruct (mag_spec x Hpos) as (_ & Hx2).
  destruct (mag_spec y Hy) as (Hy1 & _).
  unfold Double.round.
  destruct (Z.eq_dec (Double.cexp x) (Double.cexp y)) as [E|E].
  - rewrite E. apply Qmult_le_r; [apply two_pos|].
    rewrite <- Zle_Qle. apply rne_mono.
    apply Qmult_le_r; [apply two_pos | exact Hxy].
  - assert (Hlt : (Double.cexp x < Double.cexp y)%Z)
      by (unfold Double.cexp in *; lia).
    assert (Hey : Double.cexp y = (Double.mag y - Double.prec)%Z)
      by (unfold Double.cexp, Double.emin in *; lia).
    apply Qle_trans with (2 ^ (53 + Double.cexp x)).
    + rewrite two_plus. apply Qmult_le_r; [apply two_pos|].
      rewrite <- (two_Z 53) by lia. rewrite <- Zle_Qle.
      apply rne_le_Z. rewrite (two_Z 53) by lia.
      apply (Qmult_le_r _ _ (2 ^ Double.cexp x)); [apply two_pos|].
      rewrite <- Qmult_assoc, (Qmult_comm (2 ^ (- Double.cexp x))),
        two_cancel, Qmult_1_r, <- two_plus.
      apply Qlt_le_weak. apply Qlt_le_trans with (1 := Hx2).
      apply two_le. unfold Double.cexp, Double.prec. lia.
    + apply Qle_trans with (2 ^ (52 + Double.cexp y)); [apply two_le; lia|].
      rewrite two_plus. apply Qmult_le_r; [apply two_pos|].
      rewrite <- (two_Z 52) by lia. rewrite <- Zle_Qle.
      apply rne_ge_Z. rewrite (two_Z 52) by lia.
      apply (Qmult_le_r _ _ (2 ^ Double.cexp y)); [apply two_pos|].
      rewrite <- Qmult_assoc, (Qmult_comm (2 ^ (- Double.cexp y))),
        two_cancel, Qmult_1_r, <- two_plus.
      apply Qle_trans with (2 := Hy1).
      apply two_le. rewrite Hey. unfold Double.prec. lia.
Qed.

End Rounding.

(** The experience levels 0 to 100, one by one: the four nightly prices and
    the least and the greatest cost of an activity are the integers of the
    exact products, and the multiplier is not negative. *)
Lemma level_facts (e : Z) :
  0 <= e <= 100 ->
  Math_round (Double.mul 1500 (luxuryMultiplier e)) = 15 * (100 + e)
  /\ Math_round (Double.mul 3500 (luxuryMultiplier e)) = 35 * (100 + e)
  /\ Math_round (Double.mul 7500 (luxuryMultiplier e)) = 75 * (100 + e)
  /\ Math_round (Double.mul 15000 (luxuryMultiplier e)) = 150 * (100 + e)
  /\ Math_round (Double.mul 500 (luxuryMultiplier e)) = 5 * (100 + e)
  /\ (0 <= luxuryMultiplier e)%Q.
Proof.
  intros He.
  assert (Hall :
    forallb
      (fun e =>
         (Math_round (Double.mul 1500 (luxuryMultiplier e)) =? 15 * (100 + e))
         && ((Math_round (Double.mul 3500 (luxuryMultiplier e))
              =? 35 * (100 + e))
         && ((Math_round (Double.mul 7500 (luxuryMultiplier e))
              =? 75 * (100 + e))
         && ((Math_round (Double.mul 15000 (luxuryMultiplier e))
              =? 150 * (100 + e))
         && ((Math_round (Double.mul 500 (luxuryMultiplier e))
              =? 5 * (100 + e))
         && (0 <=? Qnum (luxuryMultiplier e)))))))
      (map Z.of_nat (seq 0 101)) = true)
    by (vm_compute; reflexivity).
  assert (Hin : In e (map Z.of_nat (seq 0 101))).
  { apply in_map_iff. exists (Z.to_nat e). split; [lia|].
    apply in_seq. lia. }
  pose proof (proj1 (forallb_forall _ _) Hall e Hin) as H. cbv beta in H.
  clear Hall Hin He.
  apply andb_prop in H. destruct H as (H1 & H).
  apply andb_prop in H. destruct H as (H2 & H).
  apply andb_prop in H. destruct H as (H3 & H).
  apply andb_prop in H. destruct H as (H4 & H).
  apply andb_prop in H. destruct H as (H5 & H6).
  apply Z.eqb_eq in H1, H2, H3, H4, H5. apply Z.leb_le in H6.
  repeat (split; [assumption|]).
  unfold Qle. cbn [Qnum Qden]. rewrite Z.mul_1_r. exact H6.
Qed.

(** At the levels 0 to 100 the nightly price that the doubles give is the
    integer of the exact product. *)
Lemma hotel_price_double (b : Band) (e : Z) :
  0 <= e <= 100 ->
  100 * Math_round (Double.mul (inject_Z (basePrice b)) (luxuryMultiplier e))
  = basePrice b * (100 + e).
Proof.
  intros He. destruct (level_facts e He) as (H1 & H2 & H3 & H4 & _).
  clear He.
  destruct b; cbn [basePrice]; unfold inject_Z.
  - rewrite H1. ring.
  - rewrite H2. ring.
  - rewrite H3. ring.
  - rewrite H4. ring.
Qed.

Lemma themes_are_not_inherited (th : string) :
  In th themes -> ~ In th Object_prototype_keys.
Proof.
  intros Hth Hin. cbn in Hth, Hin.
  repeat (destruct Hth as [<- | Hth];
          [repeat (destruct Hin as [Hin | Hin]; [discriminate Hin|]);
           exact Hin|]).
  exact Hth.
Qed.

(** ** The embedding on concrete inputs *)

Example double_rounding :
  (Double.round (1 # 10) == 3602879701896397 # 36028797018963968)%Q
  /\ (Double.add 1 (Double.div 13 100)
      == 1272266894732165 # 1125899906842624)%Q
  /\ (Double.round (9007199254740993 # 1) == 9007199254740992 # 1)%Q
  /\ (Double.round (9007199254740995 # 1) == 9007199254740996 # 1)%Q
  /\ (Double.round (3 # 2 ^ 1075) == 2 # 2 ^ 1074)%Q
  /\ (Double.round (-7 # 3) == -5254199565265579 # 2251799813685248)%Q.
Proof. vm_compute. repeat split. Qed.

Example costs_in_doubles :
  cost (activity_of (fun _ => 18764998447377 # 4503599627370496)%Q
          "Bali" "Art & Museums" 0 0 0) = 513
  /\ cost (activity_of (fun _ => 1 # 4)%Q "Bali" "Art & Museums" 13 0 0)
     = 1412
  /\ Math_round ((500 + (18764998447377 # 4503599627370496) * 3000)
                 * (1 + 0 / 100))%Q = 512
  /\ Math_round ((500 + (1 # 4) * 3000) * (1 + 13 / 100))%Q = 1413.
Proof. vm_compute. repeat split. Qed.

Example Math_round_half_up :
  Math_round (5 # 2) = 3 /\ Math_round (-5 # 2) = -2
  /\ Math_round (7 # 5) = 1 /\ Math_round (-8 # 5) = -2.
Proof. repeat split. Qed.

Example cost_per_person_of_nobody :
  Math_round_number (JS.div 45945 0) = Infinity
  /\ Math_round_number (JS.div 0 0) = NaN
  /\ Math_round_number (JS.div 45945 2) = Finite (inject_Z 22973).
Proof. repeat split. Qed.

Example totalDays_of_budgets :
  totalDays_of 5000 = 3 /\ totalDays_of 40000 = 5 /\ totalDays_of 64000 = 8
  /\ totalDays_of 1000000 = 14 /\ totalDays_of (-20000) = 3.
Proof. repeat split. Qed.

Example names_of_the_first_day :
  map (fun i => generateActivityName "Bali" "Arrival & City Exploration" i 90)
      (seq 0 5)
  = [ "Private Bali Walking Tour";
      "Private Historic City Center Visit";
      "Private Local Orientation & Welcome Dinner";
      "Private Sunset Viewpoint Tour";
      "Private Bali Walking Tour" ]%list
  /\ generateActivityName "Bali" "Art & Museums" 1 60
     = "Premium Local Experience"
  /\ generateActivityName "Bali" "Adventure & Nature" 2 50
     = "Wildlife Safari Tour".
Proof. repeat split. Qed.

Example paris_plan :
  exists plan,
    generates quarter_draws paris 0 plan
    /\ totalDays plan = 5
    /\ map estimatedCost (dayPlans plan) = [6564; 8439; 6564; 8439; 6564]%list
    /\ map pricePerNight (hotels plan) = [1875]%list
    /\ totalCost plan = 45945
    /\ costPerPerson plan = Finite (inject_Z 22973)
    /\ overview plan
       = "Experience the best of Paris in this carefully crafted 5-day budget-friendly adventure. From iconic landmarks to hidden gems, this itinerary balances must-see attractions with authentic local experiences.".
Proof.
  eexists. split; [unfold generates; vm_compute; reflexivity|].
  repeat split.
Qed.

Example paris_result :
  success (fst (generateTripPlan quarter_draws paris 0%nat)) = true
  /\ error (fst (generateTripPlan quarter_draws paris 0%nat)) = None
  /\ snd (generateTripPlan quarter_draws paris 0%nat) = 30%nat.
Proof. vm_compute. repeat split. Qed.

(** ** Loops that push *)

Section Pushing.

Context {A : Type}.
Variable body : nat -> list A -> Rand (list A).
Variable Q : nat -> A -> Prop.

(** Each round of the loop appends one element, which satisfies [Q] at
    the round's counter. *)
Hypothesis body_pushes : forall i acc n,
  exists x n', body i acc n = ((acc ++ [x])%list, n') /\ Q i x.

Lemma for_loop_pushes : forall count i acc n,
  exists xs n',
    for_loop count i body acc n = ((acc ++ xs)%list, n')
    /\ List.length xs = count
    /\ Forall_from Q i xs.
Proof.
  induction count as [|count IH]; intros i acc n.
  - exists nil, n. cbn. rewrite app_nil_r. auto.
  - destruct (body_pushes i acc n) as (x & n1 & Hb & Hq).
    destruct (IH (S i) (acc ++ [x])%list n1) as (xs & n2 & Hl & Hlen & Hall).
    exists (x :: xs), n2.
    cbn [for_loop]. unfold bind at 1. rewrite Hb, Hl.
    rewrite <- app_assoc. cbn. auto.
Qed.

End Pushing.

Lemma Forall_from_Forall {A : Type} (Q : nat -> A -> Prop) (P : A -> Prop) :
  (forall i x, Q i x -> P x) ->
  forall xs i, Forall_from Q i xs -> Forall P xs.
Proof.
  intros H xs; induction xs as [|x xs IH]; intros i Hall; constructor.
  - apply (H i), Hall.
  - apply (IH (S i)), Hall.
Qed.

(** ** What the generator builds *)

Section Generator.

Variable draws : nat -> Q.

Lemma push_activity_pushes (dest th : string) (e : Z) :
  forall i acc n,
    exists a n',
      push_activity draws dest th e i acc n = ((acc ++ [a])%list, n')
      /\ activity_at draws dest th e i a.
Proof.
  intros i acc n. eexists; eexists; split.
  - reflexivity.
  - unfold activity_at. cbn [name duration description category].
    repeat split. now exists n.
Qed.

Lemma push_day_pushes (dest : string) (e : Z) :
  forall d acc n,
    exists p n',
      push_day draws dest e d acc n = ((acc ++ [p])%list, n')
      /\ day_at draws dest e d p.
Proof.
  intros d acc n. unfold push_day.
  destruct (for_loop_pushes _ _
              (push_activity_pushes dest (cyclic_at themes (d - 1)%nat) e)
              (activityCount_of e) 0%nat nil n)
    as (acts & n1 & Hl & Hlen & Hall).
  cbn [app] in Hl.
  eexists; exists n1; split.
  - unfold bind. rewrite Hl. reflexivity.
  - unfold day_at; cbn. rewrite fold_left_add. repeat split; auto.
Qed.

Lemma hotels_of_single (dest : string) (e : Z) :
  exists h, hotels_of dest e = [h]%list.
Proof.
  unfold hotels_of.
  destruct (e <=? 25); [|destruct (e <=? 50); [|destruct (e <=? 75)]];
    eexists; reflexivity.
Qed.

(** The generator returns normally, and this is the plan it returns. *)
Lemma generateMockTripPlan_plan (f : TripFormData) (n : nat) :
  exists days h n',
    List.length days = Z.to_nat (totalDays_of (budget f))
    /\ Forall_from (day_at draws (destination f) (experienceType f)) 1%nat days
    /\ hotels_of (destination f) (experienceType f) = [h]%list
    /\ generateMockTripPlan draws f n =
       (Normal
          {| plan_destination := destination f;
             totalDays := totalDays_of (budget f);
             totalCost :=
               sum_Z (map estimatedCost days)
               + pricePerNight h * totalDays_of (budget f);
             costPerPerson :=
               Math_round_number
                 (JS.div (sum_Z (map estimatedCost days)
                          + pricePerNight h * totalDays_of (budget f))
                         (people f));
             hotels := [h]%list;
             dayPlans := days;
             overview :=
               generateOverview (destination f) (totalDays_of (budget f))
                 (experienceType f);
             tips := generateTips (destination f) (experienceType f) |},
        n').
Proof.
  destruct (for_loop_pushes _ _
              (push_day_pushes (destination f) (experienceType f))
              (Z.to_nat (totalDays_of (budget f))) 1%nat nil n)
    as (days & n1 & Hl & Hlen & Hall).
  destruct (hotels_of_single (destination f) (experienceType f)) as (h & Hh).
  cbn [app] in Hl.
  exists days, h, n1. repeat split; auto.
  unfold generateMockTripPlan, bind. rewrite Hl, Hh.
  cbn [array_at Z.ltb Z.compare Z.to_nat nth_error].
  rewrite fold_left_add. reflexivity.
Qed.

End Generator.

(** [generated draws f n] opens the plan returned for [f], names its days
    [days] and its hotel [h], and leaves what is to be shown of it. *)
Ltac generated draws f n :=
  let days := fresh "days" in
  let h := fresh "h" in
  let n' := fresh "n'" in
  let Hlen := fresh "Hlen" in
  let Hdays := fresh "Hdays" in
  let Hh := fresh "Hh" in
  let Hgen := fresh "Hgen" in
  destruct (generateMockTripPlan_plan draws f n)
    as (days & h & n' & Hlen & Hdays & Hh & Hgen);
  eexists; split;
  [ unfold generates; rewrite Hgen; reflexivity
  | cbn [plan_destination totalDays totalCost costPerPerson hotels dayPlans
         overview tips] ].

Lemma day_at_days (draws : nat -> Q) (dest : string) (e : Z)
    (P : DayPlan -> Prop) :
  (forall d p, day_at draws dest e d p -> P p) ->
  forall days i, Forall_from (day_at draws dest e) i days -> Forall P days.
Proof.
  intros H days i. apply Forall_from_Forall. exact H.
Qed.

(** ** Cost rollups *)

(** C1.  In every generated plan the total cost is the sum of the days'
    estimated costs plus the nightly price of the one hotel times the number
    of days; the cost per person is the total cost divided by the party size
    ([people >= 1]) and rounded to the nearest unit, halves up; and the
    estimated cost of each day is the sum of the costs of its activities.
    This holds for every request and every outcome of the draws. *)
Theorem cost_rollups_exact (draws : nat -> Q) (f : TripFormData) (n : nat) :
  1 <= people f ->
  exists plan,
    generates draws f n plan
    /\ (exists hotel,
          hotels plan = [hotel]%list
          /\ totalCost plan
             = sum_Z (map estimatedCost (dayPlans plan))
               + pricePerNight hotel * totalDays plan)
    /\ (exists c,
          costPerPerson plan = Finite (inject_Z c)
          /\ c = Math_round (inject_Z (totalCost plan) / inject_Z (people f))%Q
          /\ (2 * c - 1) * people f <= 2 * totalCost plan
             < (2 * c + 1) * people f)
    /\ Forall (fun d => estimatedCost d = sum_Z (map cost (activities d)))
         (dayPlans plan).
Proof.
  intros Hp. generated draws f n. split; [|split].
  - exists h. auto.
  - destruct (people f) as [|p|p] eqn:E; try lia.
    eexists; split; [reflexivity|]. split; [reflexivity|].
    apply Math_round_nearest.
  - eapply day_at_days; [|exact Hdays].
    intros d p Hd. apply Hd.
Qed.

Lemma cost_rollups_exact_witness :
  1 <= people paris
  /\ exists plan,
       generates quarter_draws paris 0 plan
       /\ (exists hotel,
             hotels plan = [hotel]%list
             /\ totalCost plan
                = sum_Z (map estimatedCost (dayPlans plan))
                  + pricePerNight hotel * totalDays plan)
       /\ (exists c,
             costPerPerson plan = Finite (inject_Z c)
             /\ c = Math_round (inject_Z (totalCost plan)
                                / inject_Z (people paris))%Q
             /\ (2 * c - 1) * people paris <= 2 * totalCost plan
                < (2 * c + 1) * people paris)
       /\ Forall (fun d => estimatedCost d = sum_Z (map cost (activities d)))
            (dayPlans plan).
Proof.
  split; [cbn; lia | apply (cost_rollups_exact quarter_draws paris 0); cbn; lia].
Defined.

(** ** Trip length *)

(** C2.  The number of days of a generated plan is
    [clamp(floor(budget / 8000), 3, 14)]: 3 days for a budget of 5000, 8 for
    64000 and 14 for 1000000; two requests with the same budget get the same
    number of days whatever their other fields (date, destination, party,
    experience level) and whatever the draws. *)
Theorem totalDays_from_budget :
  (forall draws f n,
     exists plan,
       generates draws f n plan
       /\ totalDays plan = clamp (budget f / 8000) 3 14)
  /\ (forall draws dest when ppl e n,
        exists plan,
          generates draws (mkTripFormData dest when ppl 5000 e) n plan
          /\ totalDays plan = 3)
  /\ (forall draws dest when ppl e n,
        exists plan,
          generates draws (mkTripFormData dest when ppl 64000 e) n plan
          /\ totalDays plan = 8)
  /\ (forall draws dest when ppl e n,
        exists plan,
          generates draws (mkTripFormData dest when ppl 1000000 e) n plan
          /\ totalDays plan = 14)
  /\ (forall b draws1 dest1 when1 ppl1 e1 n1 draws2 dest2 when2 ppl2 e2 n2,
        exists plan1 plan2,
          generates draws1 (mkTripFormData dest1 when1 ppl1 b e1) n1 plan1
          /\ generates draws2 (mkTripFormData dest2 when2 ppl2 b e2) n2 plan2
          /\ totalDays plan1 = totalDays plan2).
Proof.
  repeat split.
  - intros draws f n. generated draws f n. apply totalDays_of_clamp.
  - intros. generated draws (mkTripFormData dest when ppl 5000 e) n.
    reflexivity.
  - intros. generated draws (mkTripFormData dest when ppl 64000 e) n.
    reflexivity.
  - intros. generated draws (mkTripFormData dest when ppl 1000000 e) n.
    reflexivity.
  - intros.
    destruct (generateMockTripPlan_plan draws1
                (mkTripFormData dest1 when1 ppl1 b e1) n1)
      as (days1 & h1 & m1 & _ & _ & _ & G1).
    destruct (generateMockTripPlan_plan draws2
                (mkTripFormData dest2 when2 ppl2 b e2) n2)
      as (days2 & h2 & m2 & _ & _ & _ & G2).
    eexists; eexists; unfold generates; rewrite G1, G2.
    repeat split.
Qed.

(** ** The hotel *)

(** C3.  For an experience level [e] in [0..100] a generated plan has
    exactly one hotel, and its nightly price is
    [round(basePrice(band(e)) * (1 + e/100))], with base prices 1500, 3500,
    7500 and 15000 for the bands [0,25], (25,50], (50,75] and (75,100].  The
    product is an integer, so nothing is lost in the rounding. *)
Theorem hotel_price_by_band (draws : nat -> Q) (f : TripFormData) (n : nat) :
  0 <= experienceType f <= 100 ->
  exists plan hotel b,
    generates draws f n plan
    /\ hotels plan = [hotel]%list
    /\ band (experienceType f) = Some b
    /\ pricePerNight hotel
       = Math_round (inject_Z (basePrice b)
                     * (1 + inject_Z (experienceType f) / 100))%Q
    /\ 100 * pricePerNight hotel = basePrice b * (100 + experienceType f).
Proof.
  intros He.
  destruct (generateMockTripPlan_plan draws f n)
    as (days & h & n' & _ & _ & Hh & Hgen).
  assert (Hband : exists b,
            band (experienceType f) = Some b
            /\ pricePerNight h
               = Math_round
                   (Double.mul (inject_Z (basePrice b))
                      (luxuryMultiplier (experienceType f)))).
  { unfold band, hotels_of in *.
    destruct (Z.ltb_spec (experienceType f) 0); [lia|].
    destruct (Z.ltb_spec 100 (experienceType f)); [lia|].
    cbn [orb].
    destruct (experienceType f <=? 25);
      [|destruct (experienceType f <=? 50);
        [|destruct (experienceType f <=? 75)]];
      injection Hh as <-; eexists; split; reflexivity. }
  destruct Hband as (b & Hb & Hprice).
  exists (mkTripPlan (destination f) (totalDays_of (budget f))
            (sum_Z (map estimatedCost days)
             + pricePerNight h * totalDays_of (budget f))
            (Math_round_number
               (JS.div (sum_Z (map estimatedCost days)
                        + pricePerNight h * totalDays_of (budget f))
                       (people f)))
            [h]%list days
            (generateOverview (destination f) (totalDays_of (budget f))
               (experienceType f))
            (generateTips (destination f) (experienceType f))), h, b.
  unfold generates. rewrite Hgen.
  split; [reflexivity|]. split; [reflexivity|]. split; [exact Hb|].
  pose proof (hotel_price_double b (experienceType f) He) as Hdouble.
  rewrite <- Hprice in Hdouble. clear Hprice Hgen Hh.
  assert (Hexact :
    100 * Math_round (inject_Z (basePrice b)
                      * (1 + inject_Z (experienceType f) / 100))%Q
    = basePrice b * (100 + experienceType f)).
  { destruct b; cbn [basePrice].
    - change 1500 with (100 * 15). rewrite Math_round_multiplier. ring.
    - change 3500 with (100 * 35). rewrite Math_round_multiplier. ring.
    - change 7500 with (100 * 75). rewrite Math_round_multiplier. ring.
    - change 15000 with (100 * 150). rewrite Math_round_multiplier. ring. }
  split; [|exact Hdouble].
  apply (Z.mul_reg_l _ _ 100); [discriminate|].
  rewrite Hdouble, Hexact. reflexivity.
Qed.

Lemma hotel_price_by_band_witness :
  0 <= experienceType (request 50) <= 100
  /\ exists plan hotel b,
       generates quarter_draws (request 50) 0 plan
       /\ hotels plan = [hotel]%list
       /\ band (experienceType (request 50)) = Some b
       /\ pricePerNight hotel
          = Math_round (inject_Z (basePrice b)
                        * (1 + inject_Z (experienceType (request 50)) / 100))%Q
       /\ 100 * pricePerNight hotel
          = basePrice b * (100 + experienceType (request 50)).
Proof.
  split; [cbn; lia | apply (hotel_price_by_band quarter_draws (request 50) 0); cbn; lia].
Defined.

(** ** Activities of a day *)

Lemma Forall_from_map {A B : Type} (Q : nat -> A -> Prop) (proj : A -> B)
    (g : nat -> B) :
  (forall i x, Q i x -> proj x = g i) ->
  forall xs i,
    Forall_from Q i xs -> map proj xs = map g (seq i (List.length xs)).
Proof.
  intros H xs; induction xs as [|x xs IH]; intros i Hall; cbn.
  - reflexivity.
  - f_equal; [apply H, Hall | apply IH, Hall].
Qed.

Lemma generateActivityName_prefix (dest th : string) (i : nat) (e : Z) :
  generateActivityName dest th i e
  = tier_prefix e ++ cyclic_at (baseActivities dest th) i.
Proof.
  unfold generateActivityName, tier_prefix.
  destruct (75 <? e); [reflexivity|]. destruct (50 <? e); reflexivity.
Qed.

Lemma day_at_names (draws : nat -> Q) (dest : string) (e : Z) (d : nat)
    (p : DayPlan) :
  day_at draws dest e d p ->
  day_names p = map (append (tier_prefix e)) (candidate_names dest p).
Proof.
  intros (_ & _ & _ & Hacts & _).
  unfold day_names, candidate_names. rewrite map_map.
  apply Forall_from_map with (Q := activity_at draws dest (theme p) e) (i := 0%nat);
    [|exact Hacts].
  intros i a (Hname & _). rewrite Hname. apply generateActivityName_prefix.
Qed.

Lemma day_at_every_name (draws : nat -> Q) (dest : string) (e : Z)
    (P : string -> Prop) :
  (forall s, P (tier_prefix e ++ s)) ->
  forall d p, day_at draws dest e d p -> Forall (fun a => P (name a)) (activities p).
Proof.
  intros H d p (_ & _ & _ & Hacts & _).
  eapply Forall_from_Forall; [|exact Hacts].
  intros i a (Hname & _). cbn beta. rewrite Hname, generateActivityName_prefix.
  apply H.
Qed.

Lemma days_not_nil (b : Z) (days : list DayPlan) :
  List.length days = Z.to_nat (totalDays_of b) -> days <> nil.
Proof.
  intros Hlen ->. cbn in Hlen. pose proof (totalDays_of_range b). lia.
Qed.

(** C4, as stated: for the request Paris / 40000 / 2 people / level 25 the
    plan would have a comfort-tier hotel at 4375 a night and 4 activities a
    day.  Level 25 is in the first band, and the plan has neither. *)
Lemma paris_scenario_counterexample :
  ~ (exists plan,
       generates quarter_draws paris 0 plan
       /\ totalDays plan = 5
       /\ (exists hotel,
             hotels plan = [hotel]%list
             /\ hotel_name hotel = "Paris Comfort Inn & Suites"
             /\ pricePerNight hotel = 4375)
       /\ Forall (fun d => List.length (activities d) = 4%nat) (dayPlans plan)
       /\ Forall (fun d => day_names d = candidate_names "Paris" d)
            (dayPlans plan)).
Proof.
  intros (plan & G & _ & (hotel & Hh & _ & Hprice) & _).
  unfold generates in G. vm_compute in G.
  injection G as <-. cbn in Hh. injection Hh as <-. discriminate Hprice.
Qed.

(** C4, amended.  For the request Paris / 40000 / 2 people / level 25 the
    plan has 5 days, the budget-tier hotel with base price 1500 and
    multiplier 1.25, that is 1875 a night, and 3 activities a day whose names
    are the candidates of the day's theme without a tier prefix. *)
Theorem paris_scenario (draws : nat -> Q) (n : nat) :
  exists plan,
    generates draws paris n plan
    /\ totalDays plan = 5
    /\ List.length (dayPlans plan) = 5%nat
    /\ (exists hotel,
          hotels plan = [hotel]%list
          /\ hotel_name hotel = "Paris Backpacker's Haven"
          /\ band (experienceType paris) = Some BudgetTier
          /\ pricePerNight hotel = Math_round (1500 * (125 # 100))%Q
          /\ pricePerNight hotel = 1875)
    /\ Forall (fun d => List.length (activities d) = 3%nat) (dayPlans plan)
    /\ Forall (fun d => day_names d = candidate_names "Paris" d)
         (dayPlans plan).
Proof.
  generated draws paris n.
  split; [reflexivity|]. split; [exact Hlen|]. split; [|split].
  - exists h. vm_compute in Hh. injection Hh as <-. repeat split.
  - eapply day_at_days; [|exact Hdays]. intros d p Hd. apply Hd.
  - eapply day_at_days; [|exact Hdays]. intros d p Hd.
    rewrite (day_at_names _ _ _ _ _ Hd).
    change (tier_prefix (experienceType paris)) with "".
    change (destination paris) with "Paris".
    rewrite (map_ext (append "") (fun s => s)) by reflexivity.
    apply map_id.
Qed.

(** C5.  In every day of a generated plan the number of activities is 3 for
    an experience level of at most 25, 4 above 25 and up to 75, and 5 above
    75: three bands, where the hotel has four. *)
Theorem activity_count_by_band (draws : nat -> Q) (f : TripFormData)
    (n : nat) :
  exists plan,
    generates draws f n plan
    /\ dayPlans plan <> nil
    /\ (experienceType f <= 25 ->
        Forall (fun d => List.length (activities d) = 3%nat) (dayPlans plan))
    /\ (25 < experienceType f <= 75 ->
        Forall (fun d => List.length (activities d) = 4%nat) (dayPlans plan))
    /\ (75 < experienceType f ->
        Forall (fun d => List.length (activities d) = 5%nat) (dayPlans plan)).
Proof.
  generated draws f n.
  split; [eapply days_not_nil; exact Hlen|].
  assert (Hcount : Forall (fun d => List.length (activities d)
                                    = activityCount_of (experienceType f)) days).
  { eapply day_at_days; [|exact Hdays]. intros d p Hd. apply Hd. }
  unfold activityCount_of in Hcount.
  destruct (Z.leb_spec (experienceType f) 25);
    [|destruct (Z.leb_spec (experienceType f) 75)];
    repeat split; intros; try lia; exact Hcount.
Qed.

Lemma activity_count_by_band_witness :
  (exists plan,
     generates quarter_draws (request 25) 0 plan
     /\ Forall (fun d => List.length (activities d) = 3%nat) (dayPlans plan))
  /\ (exists plan,
        generates quarter_draws (request 75) 0 plan
        /\ Forall (fun d => List.length (activities d) = 4%nat)
             (dayPlans plan))
  /\ (exists plan,
        generates quarter_draws (request 100) 0 plan
        /\ Forall (fun d => List.length (activities d) = 5%nat)
             (dayPlans plan)).
Proof.
  split; [|split].
  - destruct (activity_count_by_band quarter_draws (request 25) 0)
      as (plan & G & _ & H3 & _).
    exists plan; split; [exact G | apply H3; cbn; lia].
  - destruct (activity_count_by_band quarter_draws (request 75) 0)
      as (plan & G & _ & _ & H4 & _).
    exists plan; split; [exact G | apply H4; cbn; lia].
  - destruct (activity_count_by_band quarter_draws (request 100) 0)
      as (plan & G & _ & _ & _ & H5).
    exists plan; split; [exact G | apply H5; cbn; lia].
Defined.

(** ** Activity names *)

Lemma prefix_append (p s : string) : String.prefix p (p ++ s) = true.
Proof.
  induction p as [|c p IH]; cbn.
  - destruct s; reflexivity.
  - destruct (ascii_dec c c) as [_|Hc]; [exact IH | now elim Hc].
Qed.

Lemma tier_prefix_private (e : Z) : 75 < e -> tier_prefix e = "Private ".
Proof.
  intros H. unfold tier_prefix. destruct (Z.ltb_spec 75 e); [reflexivity|lia].
Qed.

Lemma tier_prefix_premium (e : Z) :
  50 < e <= 75 -> tier_prefix e = "Premium ".
Proof.
  intros H. unfold tier_prefix.
  destruct (Z.ltb_spec 75 e); [lia|].
  destruct (Z.ltb_spec 50 e); [reflexivity|lia].
Qed.

Lemma tier_prefix_none (e : Z) : e <= 50 -> tier_prefix e = "".
Proof.
  intros H. unfold tier_prefix.
  destruct (Z.ltb_spec 75 e); [lia|].
  destruct (Z.ltb_spec 50 e); [lia|reflexivity].
Qed.

Lemma private_names (draws : nat -> Q) (f : TripFormData) (n : nat) :
  75 < experienceType f ->
  exists plan,
    generates draws f n plan
    /\ dayPlans plan <> nil
    /\ every_activity starts_private_only plan
    /\ Forall (fun d => day_names d
                        = map (append "Private ")
                              (candidate_names (destination f) d))
         (dayPlans plan).
Proof.
  intros He. generated draws f n.
  split; [eapply days_not_nil; exact Hlen|]. split.
  - unfold every_activity; cbn [dayPlans].
    eapply day_at_days; [|exact Hdays].
    apply (day_at_every_name draws (destination f) (experienceType f)
             (fun s => String.prefix "Private " s = true
                       /\ String.prefix "Premium " s = false)).
    intros s. rewrite tier_prefix_private by exact He.
    split; [apply prefix_append | reflexivity].
  - eapply day_at_days; [|exact Hdays]. intros d p Hd.
    rewrite (day_at_names _ _ _ _ _ Hd), tier_prefix_private by exact He.
    reflexivity.
Qed.

Lemma premium_names (draws : nat -> Q) (f : TripFormData) (n : nat) :
  50 < experienceType f <= 75 ->
  exists plan,
    generates draws f n plan
    /\ dayPlans plan <> nil
    /\ every_activity starts_premium_only plan
    /\ Forall (fun d => day_names d
                        = map (append "Premium ")
                              (candidate_names (destination f) d))
         (dayPlans plan).
Proof.
  intros He. generated draws f n.
  split; [eapply days_not_nil; exact Hlen|]. split.
  - unfold every_activity; cbn [dayPlans].
    eapply day_at_days; [|exact Hdays].
    apply (day_at_every_name draws (destination f) (experienceType f)
             (fun s => String.prefix "Premium " s = true
                       /\ String.prefix "Private " s = false)).
    intros s. rewrite tier_prefix_premium by exact He.
    split; [apply prefix_append | reflexivity].
  - eapply day_at_days; [|exact Hdays]. intros d p Hd.
    rewrite (day_at_names _ _ _ _ _ Hd), tier_prefix_premium by exact He.
    reflexivity.
Qed.

Lemma plain_names (draws : nat -> Q) (f : TripFormData) (n : nat) :
  experienceType f <= 50 ->
  exists plan,
    generates draws f n plan
    /\ dayPlans plan <> nil
    /\ Forall (fun d => day_names d = candidate_names (destination f) d)
         (dayPlans plan).
Proof.
  intros He. generated draws f n.
  split; [eapply days_not_nil; exact Hlen|].
  eapply day_at_days; [|exact Hdays]. intros d p Hd.
  rewrite (day_at_names _ _ _ _ _ Hd), tier_prefix_none by exact He.
  rewrite (map_ext (append "") (fun s => s)) by reflexivity.
  apply map_id.
Qed.

(** C6.  At experience level 80 every activity name of a generated plan
    starts with "Private ", at 60 with "Premium ", and at 30 the names are
    the candidates as they are, nothing added.  The prefixes exclude each
    other: above 75 every name is "Private " followed by the candidate, and
    does not start with "Premium ". *)
Theorem activity_name_prefixes :
  (forall draws dest when ppl b n,
     exists plan,
       generates draws (mkTripFormData dest when ppl b 80) n plan
       /\ dayPlans plan <> nil
       /\ every_activity
            (fun a => String.prefix "Private " (name a) = true) plan)
  /\ (forall draws dest when ppl b n,
        exists plan,
          generates draws (mkTripFormData dest when ppl b 60) n plan
          /\ dayPlans plan <> nil
          /\ every_activity
               (fun a => String.prefix "Premium " (name a) = true) plan)
  /\ (forall draws dest when ppl b n,
        exists plan,
          generates draws (mkTripFormData dest when ppl b 30) n plan
          /\ dayPlans plan <> nil
          /\ Forall (fun d => day_names d = candidate_names dest d)
               (dayPlans plan))
  /\ (forall draws f n,
        75 < experienceType f ->
        exists plan,
          generates draws f n plan
          /\ dayPlans plan <> nil
          /\ every_activity starts_private_only plan
          /\ Forall (fun d => day_names d
                              = map (append "Private ")
                                    (candidate_names (destination f) d))
               (dayPlans plan)).
Proof.
  split; [|split; [|split]].
  - intros.
    destruct (private_names draws (mkTripFormData dest when ppl b 80) n)
      as (plan & G & Hne & Hall & _); [cbn; lia|].
    exists plan. repeat split; auto.
    unfold every_activity in *.
    eapply Forall_impl; [|exact Hall]. intros d Hd.
    eapply Forall_impl; [|exact Hd]. intros a Ha. apply Ha.
  - intros.
    destruct (premium_names draws (mkTripFormData dest when ppl b 60) n)
      as (plan & G & Hne & Hall & _); [cbn; lia|].
    exists plan. repeat split; auto.
    unfold every_activity in *.
    eapply Forall_impl; [|exact Hall]. intros d Hd.
    eapply Forall_impl; [|exact Hd]. intros a Ha. apply Ha.
  - intros.
    apply (plain_names draws (mkTripFormData dest when ppl b 30) n).
    cbn; lia.
  - intros draws f n He. apply private_names. exact He.
Qed.

Lemma activity_name_prefixes_witness :
  exists plan,
    generates quarter_draws (request 100) 0 plan
    /\ dayPlans plan <> nil
    /\ every_activity starts_private_only plan
    /\ Forall (fun d => day_names d
                        = map (append "Private ")
                              (candidate_names (destination (request 100)) d))
         (dayPlans plan).
Proof.
  destruct activity_name_prefixes as (_ & _ & _ & H).
  apply (H quarter_draws (request 100) 0%nat). cbn; lia.
Defined.

(** ** Tips *)

Lemma generateTips_extends (dest : string) (e1 e2 : Z) :
  e1 <= e2 ->
  exists more, generateTips dest e2 = (generateTips dest e1 ++ more)%list.
Proof.
  intros H. unfold generateTips.
  destruct (Z.ltb_spec 50 e1); destruct (Z.ltb_spec 75 e1);
    destruct (Z.ltb_spec 50 e2); destruct (Z.ltb_spec 75 e2);
    try lia; eexists; cbn [app general_tips];
    repeat (apply f_equal); try reflexivity.
  all: try (symmetry; apply app_nil_r).
Qed.

(** C7.  The tips of a generated plan are 5 for an experience level up to
    50, 7 above 50 and up to 75, and 8 above 75.  The five general tips
    always come first, and the tips of a higher level are those of a lower
    level followed by further ones. *)
Theorem tips_accumulate (draws : nat -> Q) (f : TripFormData) (n : nat) :
  exists plan,
    generates draws f n plan
    /\ firstn 5 (tips plan) = general_tips (destination f)
    /\ (experienceType f <= 50 -> List.length (tips plan) = 5%nat)
    /\ (50 < experienceType f <= 75 -> List.length (tips plan) = 7%nat)
    /\ (75 < experienceType f -> List.length (tips plan) = 8%nat)
    /\ (forall draws' f' n',
          destination f' = destination f ->
          experienceType f <= experienceType f' ->
          exists plan' more,
            generates draws' f' n' plan'
            /\ tips plan' = (tips plan ++ more)%list).
Proof.
  generated draws f n.
  split; [|split; [|split; [|split]]].
  - unfold generateTips.
    destruct (50 <? experienceType f); destruct (75 <? experienceType f);
      reflexivity.
  - intros He. unfold generateTips.
    destruct (Z.ltb_spec 50 (experienceType f)); [lia|].
    destruct (Z.ltb_spec 75 (experienceType f)); [lia|]. reflexivity.
  - intros He. unfold generateTips.
    destruct (Z.ltb_spec 50 (experienceType f)); [|lia].
    destruct (Z.ltb_spec 75 (experienceType f)); [lia|]. reflexivity.
  - intros He. unfold generateTips.
    destruct (Z.ltb_spec 50 (experienceType f)); [|lia].
    destruct (Z.ltb_spec 75 (experienceType f)); [|lia]. reflexivity.
  - intros draws2 f2 n2 Hdest He.
    destruct (generateMockTripPlan_plan draws2 f2 n2)
      as (days' & h' & m' & _ & _ & _ & G').
    destruct (generateTips_extends (destination f) _ _ He) as (more & Hmore).
    eexists; exists more. unfold generates. rewrite G'.
    split; [reflexivity|]. cbn [tips]. rewrite Hdest. exact Hmore.
Qed.

Lemma tips_accumulate_witness :
  (exists plan,
     generates quarter_draws (request 10) 0 plan
     /\ List.length (tips plan) = 5%nat
     /\ exists plan' more,
          generates quarter_draws (request 90) 0 plan'
          /\ tips plan' = (tips plan ++ more)%list)
  /\ (exists plan,
        generates quarter_draws (request 60) 0 plan
        /\ List.length (tips plan) = 7%nat)
  /\ (exists plan,
        generates quarter_draws (request 90) 0 plan
        /\ List.length (tips plan) = 8%nat).
Proof.
  split; [|split].
  - destruct (tips_accumulate quarter_draws (request 10) 0)
      as (plan & G & _ & H5 & _ & _ & Hmore).
    exists plan. split; [exact G|]. split; [apply H5; cbn; lia|].
    apply (Hmore quarter_draws (request 90) 0%nat); [reflexivity | cbn; lia].
  - destruct (tips_accumulate quarter_draws (request 60) 0)
      as (plan & G & _ & _ & H7 & _).
    exists plan. split; [exact G | apply H7; cbn; lia].
  - destruct (tips_accumulate quarter_draws (request 90) 0)
      as (plan & G & _ & _ & _ & H8 & _).
    exists plan. split; [exact G | apply H8; cbn; lia].
Defined.

(** ** The result of the call *)


Lemma cyclic_at_In (l : list string) (i : nat) :
  l <> nil -> In (cyclic_at l i) l.
Proof.
  intros Hl. unfold cyclic_at. apply nth_In.
  apply Nat.mod_upper_bound. destruct l; [congruence | discriminate].
Qed.

Lemma activityCount_of_range (e : Z) :
  (3 <= activityCount_of e <= 5)%nat.
Proof.
  unfold activityCount_of.
  destruct (e <=? 25); [lia|]. destruct (e <=? 75); lia.
Qed.





(** ** The travel date *)

(** C9.  The date of the request is never read: two requests that differ
    only in their date (present or not) get, for the same draws, the same
    plan and the same result of the call; and two requests with the same
    budget get the same number of days whatever their dates and
    destinations. *)
Theorem date_never_read :
  (forall draws dest ppl b e when1 when2 n,
     exists plan,
       generates draws (mkTripFormData dest when1 ppl b e) n plan
       /\ generates draws (mkTripFormData dest when2 ppl b e) n plan
       /\ generateTripPlan draws (mkTripFormData dest when1 ppl b e) n
          = generateTripPlan draws (mkTripFormData dest when2 ppl b e) n)
  /\ (forall draws ppl b e dest1 when1 dest2 when2 n,
        exists plan1 plan2,
          generates draws (mkTripFormData dest1 when1 ppl b e) n plan1
          /\ generates draws (mkTripFormData dest2 when2 ppl b e) n plan2
          /\ totalDays plan1 = totalDays plan2
          /\ List.length (dayPlans plan1) = List.length (dayPlans plan2)).
Proof.
  split.
  - intros.
    destruct (generateMockTripPlan_plan draws
                (mkTripFormData dest when1 ppl b e) n)
      as (days & h & n' & _ & _ & _ & G).
    eexists. unfold generates.
    change (generateMockTripPlan draws (mkTripFormData dest when2 ppl b e) n)
      with (generateMockTripPlan draws (mkTripFormData dest when1 ppl b e) n).
    rewrite G. repeat split.
  - intros.
    destruct (generateMockTripPlan_plan draws
                (mkTripFormData dest1 when1 ppl b e) n)
      as (days1 & h1 & m1 & L1 & _ & _ & G1).
    destruct (generateMockTripPlan_plan draws
                (mkTripFormData dest2 when2 ppl b e) n)
      as (days2 & h2 & m2 & L2 & _ & _ & G2).
    eexists; eexists; unfold generates; rewrite G1, G2.
    repeat split. cbn [dayPlans]. rewrite L1, L2. reflexivity.
Qed.

(** ** Five activities, four names *)

Lemma baseActivities_length (dest th : string) :
  List.length (baseActivities dest th) = 4%nat.
Proof.
  unfold baseActivities, activity_table, lookup.
  repeat match goal with
         | |- context [String.eqb ?a ?b] => destruct (String.eqb a b)
         end; reflexivity.
Qed.

Lemma cyclic_at_fifth (l : list string) :
  List.length l = 4%nat -> cyclic_at l 4 = cyclic_at l 0.
Proof.
  intros H. unfold cyclic_at. rewrite H. reflexivity.
Qed.

Lemma baseActivities_in_code (dest th : string) :
  In (baseActivities dest th)
     (generic_activities :: map snd (activity_table dest)).
Proof.
  unfold baseActivities, activity_table, lookup.
  repeat match goal with
         | |- context [String.eqb ?a ?b] => destruct (String.eqb a b)
         end; cbn; auto 6.
Qed.

(** C10.  Above experience level 75 each day has 5 activities, while each
    of the five lists of candidate names in the code, the four of the
    themes and the generic one, has 4 entries.  The name in slot [i] of a
    day is "Private " followed by the candidate at [i mod 4] of the list of
    the day's theme, one of the eight themes: the five names of a day are
    the four candidates in their order and the first one again, so that the
    fifth activity has the name of the first.  On the first day they are
    the names of "Arrival & City Exploration". *)
Theorem fifth_activity_repeats_first (draws : nat -> Q) (f : TripFormData)
    (n : nat) :
  75 < experienceType f ->
  Forall (fun candidates => List.length candidates = 4%nat)
    (generic_activities :: map snd (activity_table (destination f)))
  /\ exists plan,
       generates draws f n plan
       /\ Forall (fun d =>
                    In (theme d) themes
                    /\ exists c0 c1 c2 c3 a0 a1 a2 a3 a4,
                         baseActivities (destination f) (theme d)
                         = [c0; c1; c2; c3]%list
                         /\ In [c0; c1; c2; c3]%list
                              (generic_activities
                               :: map snd (activity_table (destination f)))
                         /\ activities d = [a0; a1; a2; a3; a4]%list
                         /\ map name (activities d)
                            = [ ("Private " ++ c0)%string;
                                ("Private " ++ c1)%string;
                                ("Private " ++ c2)%string;
                                ("Private " ++ c3)%string;
                                ("Private " ++ c0)%string ]%list
                         /\ (forall i a,
                               nth_error (activities d) i = Some a ->
                               exists c,
                                 nth_error [c0; c1; c2; c3]%list (i mod 4)
                                 = Some c
                                 /\ name a = "Private " ++ c)
                         /\ name a4 = name a0
                         /\ String.prefix "Private " (name a0) = true
                         /\ String.prefix "Private " (name a4) = true)
            (dayPlans plan)
       /\ exists first,
            nth_error (dayPlans plan) 0 = Some first
            /\ map name (activities first)
               = [ ("Private " ++ destination f ++ " Walking Tour")%string;
                   "Private Historic City Center Visit";
                   "Private Local Orientation & Welcome Dinner";
                   "Private Sunset Viewpoint Tour";
                   ("Private " ++ destination f ++ " Walking Tour")%string
                 ]%list.
Proof.
  intros He. split.
  { repeat constructor. }
  assert (Hday : forall d p,
            day_at draws (destination f) (experienceType f) d p ->
            forall c0 c1 c2 c3,
              baseActivities (destination f) (theme p)
              = [c0; c1; c2; c3]%list ->
              exists a0 a1 a2 a3 a4,
                activities p = [a0; a1; a2; a3; a4]%list
                /\ name a0 = "Private " ++ c0 /\ name a1 = "Private " ++ c1
                /\ name a2 = "Private " ++ c2 /\ name a3 = "Private " ++ c3
                /\ name a4 = "Private " ++ c0).
  { intros d p (_ & _ & Hcount & Hacts & _) c0 c1 c2 c3 Hc.
    unfold activityCount_of in Hcount.
    destruct (Z.leb_spec (experienceType f) 25); [lia|].
    destruct (Z.leb_spec (experienceType f) 75); [lia|].
    destruct (activities p) as [|a0 [|a1 [|a2 [|a3 [|a4 [|a5 rest]]]]]];
      try discriminate Hcount.
    exists a0, a1, a2, a3, a4. split; [reflexivity|].
    cbn in Hacts.
    destruct Hacts
      as ((N0 & _) & (N1 & _) & (N2 & _) & (N3 & _) & (N4 & _) & _).
    rewrite N0, N1, N2, N3, N4, !generateActivityName_prefix, Hc.
    rewrite tier_prefix_private by exact He.
    repeat split. }
  generated draws f n. split.
  - eapply day_at_days; [|exact Hdays].
    intros d p Hd. split.
    { destruct Hd as (_ & Hth & _). rewrite Hth.
      apply cyclic_at_In. discriminate. }
    pose proof (baseActivities_length (destination f) (theme p)) as Hl.
    pose proof (baseActivities_in_code (destination f) (theme p)) as Hin.
    destruct (baseActivities (destination f) (theme p))
      as [|c0 [|c1 [|c2 [|c3 [|c4 more]]]]] eqn:Hc; try discriminate Hl.
    destruct (Hday d p Hd c0 c1 c2 c3 Hc)
      as (a0 & a1 & a2 & a3 & a4 & Ha & N0 & N1 & N2 & N3 & N4).
    exists c0, c1, c2, c3, a0, a1, a2, a3, a4.
    split; [reflexivity|]. split; [exact Hin|]. split; [exact Ha|].
    rewrite Ha. cbn [map]. rewrite N0, N1, N2, N3, N4.
    split; [reflexivity|]. split; [|split; [reflexivity|]].
    + intros i a Hi.
      destruct i as [|[|[|[|[|i]]]]]; cbn in Hi;
        try (injection Hi as <-; eexists; split; [reflexivity | assumption]).
      destruct i; discriminate Hi.
    + split; apply prefix_append.
  - destruct days as [|first days]; [exfalso; revert Hlen; cbn;
      pose proof (totalDays_of_range (budget f)); lia|].
    exists first. split; [reflexivity|].
    destruct Hdays as (Hfirst & _).
    assert (Hth : theme first = "Arrival & City Exploration")
      by apply Hfirst.
    destruct (Hday 1%nat first Hfirst
                (destination f ++ " Walking Tour")
                "Historic City Center Visit"
                "Local Orientation & Welcome Dinner"
                "Sunset Viewpoint Tour")
      as (a0 & a1 & a2 & a3 & a4 & Ha & N0 & N1 & N2 & N3 & N4).
    { rewrite Hth. reflexivity. }
    rewrite Ha. cbn [map]. rewrite N0, N1, N2, N3, N4. reflexivity.
Qed.

Lemma fifth_activity_repeats_first_witness :
  exists plan first,
    generates quarter_draws (request 100) 0 plan
    /\ nth_error (dayPlans plan) 0 = Some first
    /\ map name (activities first)
       = [ "Private Bali Walking Tour";
           "Private Historic City Center Visit";
           "Private Local Orientation & Welcome Dinner";
           "Private Sunset Viewpoint Tour";
           "Private Bali Walking Tour" ]%list.
Proof.
  destruct (fifth_activity_repeats_first quarter_draws (request 100) 0)
    as (_ & plan & G & _ & first & Hfirst & Hnames); [cbn; lia|].
  exists plan, first. repeat split; assumption.
Defined.

(** * Further properties of the code *)

(** ** The draws behind a plan *)

Section Mapping.

Context {A : Type}.
Variable body : nat -> list A -> Rand (list A).
Variable g : nat -> nat -> A.
Variable step : nat.

(** Each round appends an element that depends on the counter and on the
    cursor, and moves the cursor by [step]. *)
Hypothesis body_maps : forall i acc n,
  body i acc n = ((acc ++ [g i n])%list, (step + n)%nat).

Lemma for_loop_map : forall count i acc n,
  for_loop count i body acc n
  = ((acc ++ map (fun j => g (j + i)%nat (step * j + n)%nat) (seq 0 count))%list,
     (step * count + n)%nat).
Proof.
  induction count as [|count IH]; intros i acc n.
  - cbn. rewrite app_nil_r, Nat.mul_0_r. reflexivity.
  - cbn [for_loop]. unfold bind at 1. rewrite body_maps, IH.
    rewrite <- app_assoc. cbn [seq map app].
    rewrite <- seq_shift, map_map.
    f_equal; [f_equal|lia].
    f_equal; [f_equal; lia|].
    apply map_ext. intros j. f_equal; lia.
Qed.

End Mapping.

Section Closed.

Variable draws : nat -> Q.

Lemma push_activity_maps (dest th : string) (e : Z) (i : nat)
    (acc : list Activity) (n : nat) :
  push_activity draws dest th e i acc n
  = ((acc ++ [activity_of draws dest th e i n])%list, (2 + n)%nat).
Proof. reflexivity. Qed.

Lemma push_day_maps (dest : string) (e : Z) (d : nat) (acc : list DayPlan)
    (n : nat) :
  push_day draws dest e d acc n
  = ((acc ++ [day_from draws dest e d n])%list,
     (2 * activityCount_of e + n)%nat).
Proof.
  unfold push_day, bind.
  rewrite (for_loop_map _ _ 2
             (push_activity_maps dest (cyclic_at themes (d - 1)%nat) e)).
  cbn [app]. rewrite fold_left_add. unfold day_from.
  rewrite (map_ext
             (fun j => activity_of draws dest (cyclic_at themes (d - 1)%nat) e
                         (j + 0)%nat (2 * j + n)%nat)
             (fun i => activity_of draws dest (cyclic_at themes (d - 1)%nat) e
                         i (2 * i + n)%nat))
    by (intros j; rewrite Nat.add_0_r; reflexivity).
  reflexivity.
Qed.

Lemma for_loop_days (dest : string) (e : Z) (count n : nat) :
  for_loop count 1%nat (push_day draws dest e) nil n
  = (map (day_of draws dest e n) (seq 1 count),
     (2 * activityCount_of e * count + n)%nat).
Proof.
  rewrite (for_loop_map _ _ (2 * activityCount_of e) (push_day_maps dest e)).
  cbn [app]. f_equal.
  rewrite <- seq_shift, map_map.
  apply map_ext. intros j. unfold day_of.
  rewrite Nat.add_1_r. f_equal. cbn [Nat.sub]. rewrite Nat.sub_0_r.
  reflexivity.
Qed.

(** The plan the generator returns, in closed form, and the cursor it
    leaves. *)
Lemma generateMockTripPlan_closed (f : TripFormData) (n : nat) :
  exists h,
    hotels_of (destination f) (experienceType f) = [h]%list
    /\ generateMockTripPlan draws f n =
       (Normal
          {| plan_destination := destination f;
             totalDays := totalDays_of (budget f);
             totalCost :=
               sum_Z (map estimatedCost (days_of draws f n))
               + pricePerNight h * totalDays_of (budget f);
             costPerPerson :=
               Math_round_number
                 (JS.div (sum_Z (map estimatedCost (days_of draws f n))
                          + pricePerNight h * totalDays_of (budget f))
                         (people f));
             hotels := [h]%list;
             dayPlans := days_of draws f n;
             overview :=
               generateOverview (destination f) (totalDays_of (budget f))
                 (experienceType f);
             tips := generateTips (destination f) (experienceType f) |},
        (draws_read f + n)%nat).
Proof.
  destruct (hotels_of_single (destination f) (experienceType f)) as (h & Hh).
  exists h. split; [exact Hh|].
  unfold generateMockTripPlan, bind. rewrite for_loop_days, Hh.
  cbn [array_at Z.ltb Z.compare Z.to_nat nth_error].
  rewrite fold_left_add. reflexivity.
Qed.

End Closed.

Lemma nth_error_seq_in (start len k : nat) :
  (k < len)%nat -> nth_error (seq start len) k = Some (start + k)%nat.
Proof.
  revert start k; induction len as [|len IH]; intros start k Hk; [lia|].
  destruct k as [|k]; cbn.
  - f_equal; lia.
  - rewrite IH by lia. f_equal; lia.
Qed.

(** X1.  A call that starts at draw [n] reads [2 * activityCount * totalDays]
    draws and returns normally.  The activity in slot [i] of day [d] takes
    its duration from draw [n + 2 * (activityCount * (d - 1) + i)] and its
    cost from the draw after it: the cost is
    [Math.round((500 + draw * 3000) * luxuryMultiplier)] as the doubles
    compute it, each operation rounded to the nearest double. *)
Theorem draws_of_an_activity (draws : nat -> Q) (f : TripFormData)
    (n d i : nat) :
  (1 <= d <= Z.to_nat (totalDays_of (budget f)))%nat ->
  (i < activityCount_of (experienceType f))%nat ->
  exists plan p a,
    generateMockTripPlan draws f n = (Normal plan, (draws_read f + n)%nat)
    /\ nth_error (dayPlans plan) (d - 1) = Some p
    /\ day p = Z.of_nat d
    /\ nth_error (activities p) i = Some a
    /\ let k :=
         (n + 2 * (activityCount_of (experienceType f) * (d - 1) + i))%nat in
       duration a = array_at durations (Math_floor (draws k * 4)%Q)
       /\ cost a
          = Math_round
              (Double.round
                 (Double.round (500 + Double.round (draws (S k) * 3000))
                  * Double.round
                      (1 + Double.round
                             (inject_Z (experienceType f) / 100))))%Q.
Proof.
  intros Hd Hi.
  destruct (generateMockTripPlan_closed draws f n) as (h & _ & G).
  eexists; eexists; eexists. split; [exact G|].
  cbn [dayPlans]. unfold days_of.
  split; [|split; [|split]].
  - apply map_nth_error. rewrite nth_error_seq_in by lia.
    replace (1 + (d - 1))%nat with d by lia. reflexivity.
  - reflexivity.
  - cbn [activities day_of day_from]. apply map_nth_error.
    rewrite nth_error_seq_in by lia. reflexivity.
  - cbv zeta. cbn [duration cost activity_of].
    replace (2 * (0 + i)
             + (2 * activityCount_of (experienceType f) * (d - 1) + n))%nat
      with (n + 2 * (activityCount_of (experienceType f) * (d - 1) + i))%nat
      by lia.
    split; reflexivity.
Qed.

Lemma draws_of_an_activity_witness :
  (exists plan p a,
     generateMockTripPlan quarter_draws paris 0%nat = (Normal plan, 30%nat)
     /\ nth_error (dayPlans plan) 1 = Some p
     /\ day p = 2
     /\ nth_error (activities p) 2 = Some a
     /\ duration a = Some "Half day"
     /\ cost a = 3438)
  /\ (exists plan p a,
        generateMockTripPlan
          (fun _ => 18764998447377 # 4503599627370496)%Q
          (mkTripFormData "Goa" None 2 50000 0) 0%nat
        = (Normal plan, 36%nat)
        /\ nth_error (dayPlans plan) 0 = Some p
        /\ nth_error (activities p) 0 = Some a
        /\ duration a = Some "2 hours"
        /\ cost a = 513).
Proof.
  split.
  - destruct (draws_of_an_activity quarter_draws paris 0 2 2)
      as (plan & p & a & G & Hp & Hday & Ha & Hdur & Hcost);
      [cbn; lia | cbn; lia |].
    vm_compute in Hdur. vm_compute in Hcost.
    exists plan, p, a. repeat split; assumption.
  - destruct (draws_of_an_activity
                (fun _ => 18764998447377 # 4503599627370496)%Q
                (mkTripFormData "Goa" None 2 50000 0) 0 1 0)
      as (plan & p & a & G & Hp & Hday & Ha & Hdur & Hcost);
      [cbn; lia | cbn; lia |].
    vm_compute in Hdur. vm_compute in Hcost.
    exists plan, p, a. repeat split; assumption.
Defined.

(** ** Draws that are not read *)

Lemma day_from_ext (draws1 draws2 : nat -> Q) (dest : string) (e : Z)
    (d k : nat) :
  (forall j, (k <= j < 2 * activityCount_of e + k)%nat ->
             draws1 j = draws2 j) ->
  day_from draws1 dest e d k = day_from draws2 dest e d k.
Proof.
  intros H. unfold day_from.
  assert (Hacts :
    map (fun i => activity_of draws1 dest (cyclic_at themes (d - 1)%nat) e i
                    (2 * i + k)%nat) (seq 0 (activityCount_of e))
    = map (fun i => activity_of draws2 dest (cyclic_at themes (d - 1)%nat) e i
                      (2 * i + k)%nat) (seq 0 (activityCount_of e))).
  { apply map_ext_in. intros i Hi. apply in_seq in Hi.
    unfold activity_of. rewrite !H by lia. reflexivity. }
  cbv zeta. rewrite Hacts. reflexivity.
Qed.

Lemma days_of_ext (draws1 draws2 : nat -> Q) (f : TripFormData) (n : nat) :
  (forall j, (n <= j < draws_read f + n)%nat -> draws1 j = draws2 j) ->
  days_of draws1 f n = days_of draws2 f n.
Proof.
  intros H. unfold days_of. apply map_ext_in. intros d Hd.
  apply in_seq in Hd. unfold day_of. apply day_from_ext.
  intros j Hj. apply H. unfold draws_read. nia.
Qed.

(** X2.  The result of a call depends on the draws it reads and on no
    other: two streams that agree from draw [n] up to the
    [2 * activityCount * totalDays] draws of the call give the same result
    and leave the cursor at the same place. *)
Theorem result_depends_on_read_draws (draws1 draws2 : nat -> Q)
    (f : TripFormData) (n : nat) :
  (forall j, (n <= j < draws_read f + n)%nat -> draws1 j = draws2 j) ->
  generateTripPlan draws1 f n = generateTripPlan draws2 f n
  /\ snd (generateTripPlan draws1 f n) = (draws_read f + n)%nat.
Proof.
  intros H.
  destruct (generateMockTripPlan_closed draws1 f n) as (h1 & Hh1 & G1).
  destruct (generateMockTripPlan_closed draws2 f n) as (h2 & Hh2 & G2).
  assert (h1 = h2) by congruence. subst h2.
  unfold generateTripPlan, bind. rewrite G1, G2.
  rewrite (days_of_ext draws1 draws2 f n H). split; reflexivity.
Qed.

Lemma result_depends_on_read_draws_witness :
  generateTripPlan quarter_draws paris 0%nat
  = generateTripPlan
      (fun j => if (j <? 30)%nat then quarter_draws j else (7 # 8)%Q)
      paris 0%nat
  /\ snd (generateTripPlan quarter_draws paris 0%nat) = 30%nat.
Proof.
  apply (result_depends_on_read_draws quarter_draws
           (fun j => if (j <? 30)%nat then quarter_draws j else (7 # 8)%Q)
           paris 0%nat).
  intros j Hj. change (draws_read paris) with 30%nat in Hj.
  destruct (Nat.ltb_spec j 30); [reflexivity | lia].
Defined.

(** ** What a plan costs *)

Lemma round_exact (x : Q) (z : Z) :
  Qeq_bool (Double.round (inject_Z z)) (inject_Z z) = true ->
  (x <= inject_Z z)%Q -> (0 <= x)%Q ->
  (Double.round x <= inject_Z z)%Q.
Proof.
  intros E Hx H0. apply Qeq_bool_eq in E. rewrite <- E.
  apply round_mono; assumption.
Qed.

Lemma round_exact_ge (x : Q) (z : Z) :
  Qeq_bool (Double.round (inject_Z z)) (inject_Z z) = true ->
  (inject_Z z <= x)%Q -> 0 <= z ->
  (inject_Z z <= Double.round x)%Q.
Proof.
  intros E Hx H0. apply Qeq_bool_eq in E. rewrite <- E.
  apply round_mono; [|exact Hx].
  change 0%Q with (inject_Z 0). rewrite <- Zle_Qle. exact H0.
Qed.

(** The cost of an activity, for a draw in [0,1) and a level in [0..100]:
    the doubles keep the order, and at both ends of the range of the draws
    the product rounds to the integer of the exact product. *)
Lemma activity_cost_bounds (r : Q) (e : Z) :
  (0 <= r)%Q -> (r < 1)%Q -> 0 <= e <= 100 ->
  5 * (100 + e)
  <= Math_round
       (Double.mul (Double.add 500 (Double.mul r 3000)) (luxuryMultiplier e))
  <= 35 * (100 + e).
Proof.
  intros Hlo Hhi He.
  destruct (level_facts e He) as (_ & H3500 & _ & _ & H500 & Hm).
  clear He.
  set (m := luxuryMultiplier e) in *. clearbody m.
  assert (H1 : (0 <= Double.mul r 3000 <= 3000)%Q).
  { unfold Double.mul. split.
    - apply round_nonneg. apply Qmult_le_0_compat; [exact Hlo | discriminate].
    - apply (round_exact _ 3000); [vm_compute; reflexivity | |].
      + change (inject_Z 3000) with (1 * 3000)%Q.
        apply Qmult_le_r; [reflexivity | apply Qlt_le_weak, Hhi].
      + apply Qmult_le_0_compat; [exact Hlo | discriminate]. }
  set (t1 := Double.mul r 3000) in *. clearbody t1.
  assert (H2 : (500 <= Double.add 500 t1 <= 3500)%Q).
  { unfold Double.add. split.
    - apply (round_exact_ge _ 500); [vm_compute; reflexivity | | lia].
      rewrite <- (Qplus_0_r (inject_Z 500)) at 1.
      apply Qplus_le_r. apply H1.
    - apply (round_exact _ 3500); [vm_compute; reflexivity | |].
      + change (inject_Z 3500) with (500 + 3000)%Q.
        apply Qplus_le_r. apply H1.
      + apply Qle_trans with (500 + 0)%Q; [discriminate|].
        apply Qplus_le_r. apply H1. }
  set (t2 := Double.add 500 t1) in *. clearbody t2. clear H1 t1 Hlo Hhi r.
  rewrite <- H500, <- H3500. clear H500 H3500.
  unfold Double.mul. split; apply Math_round_mono; apply round_mono.
  - apply Qmult_le_0_compat; [discriminate | exact Hm].
  - apply Qmult_le_compat_r; [apply H2 | exact Hm].
  - apply Qmult_le_0_compat; [|exact Hm].
    apply Qle_trans with (2 := proj1 H2). discriminate.
  - apply Qmult_le_compat_r; [apply H2 | exact Hm].
Qed.

Lemma sum_Z_bounds (lo hi : Z) (l : list Z) :
  Forall (fun x => lo <= x <= hi) l ->
  Z.of_nat (List.length l) * lo <= sum_Z l <= Z.of_nat (List.length l) * hi.
Proof.
  induction 1 as [|x l Hx _ IH]; [cbn; lia|].
  cbn [sum_Z fold_right List.length]. fold (sum_Z l).
  rewrite Nat2Z.inj_succ. lia.
Qed.

Lemma hotels_of_price (dest : string) (e : Z) (h : Hotel) :
  0 <= e <= 100 ->
  hotels_of dest e = [h]%list ->
  exists b, band e = Some b
            /\ 100 * pricePerNight h = basePrice b * (100 + e).
Proof.
  intros He Hh. unfold band, hotels_of in *.
  destruct (Z.ltb_spec e 0); [lia|].
  destruct (Z.ltb_spec 100 e); [lia|]. cbn [orb].
  destruct (e <=? 25); [|destruct (e <=? 50); [|destruct (e <=? 75)]];
    injection Hh as <-; eexists; (split; [reflexivity|]);
    cbn [pricePerNight].
  - apply (hotel_price_double BudgetTier e He).
  - apply (hotel_price_double ComfortTier e He).
  - apply (hotel_price_double PremiumTier e He).
  - apply (hotel_price_double LuxuryTier e He).
Qed.

Section Costs.

Variable draws : nat -> Q.
Hypothesis draws_unit : forall k, (0 <= draws k)%Q /\ (draws k < 1)%Q.

Variable dest : string.
Variable e : Z.
Hypothesis level : 0 <= e <= 100.

Lemma day_from_costs (d k : nat) :
  Forall (fun a => 5 * (100 + e) <= cost a <= 35 * (100 + e))
    (activities (day_from draws dest e d k)).
Proof.
  cbn [day_from activities]. apply Forall_forall. intros a Ha.
  apply in_map_iff in Ha. destruct Ha as (i & <- & _).
  cbn [activity_of cost]. apply activity_cost_bounds; try apply draws_unit.
  exact level.
Qed.

Lemma day_from_estimate (d k : nat) :
  Z.of_nat (activityCount_of e) * (5 * (100 + e))
  <= estimatedCost (day_from draws dest e d k)
  <= Z.of_nat (activityCount_of e) * (35 * (100 + e)).
Proof.
  pose proof (day_from_costs d k) as H.
  cbn [day_from activities estimatedCost] in *.
  apply (Forall_map cost (fun x => 5 * (100 + e) <= x <= 35 * (100 + e)))
    in H.
  apply sum_Z_bounds in H. rewrite length_map, length_map, length_seq in H.
  exact H.
Qed.

End Costs.

Lemma days_of_estimates (draws : nat -> Q) (f : TripFormData) (n : nat) :
  (forall k, (0 <= draws k)%Q /\ (draws k < 1)%Q) ->
  0 <= experienceType f <= 100 ->
  Forall (fun x =>
            Z.of_nat (activityCount_of (experienceType f))
            * (5 * (100 + experienceType f))
            <= x
            <= Z.of_nat (activityCount_of (experienceType f))
               * (35 * (100 + experienceType f)))
    (map estimatedCost (days_of draws f n)).
Proof.
  intros Hdraws He. unfold days_of. rewrite map_map.
  apply Forall_forall. intros x Hx. apply in_map_iff in Hx.
  destruct Hx as (d & <- & _). unfold day_of.
  apply day_from_estimate; assumption.
Qed.

Lemma days_of_length (draws : nat -> Q) (f : TripFormData) (n : nat) :
  Z.of_nat (List.length (map estimatedCost (days_of draws f n)))
  = totalDays_of (budget f).
Proof.
  unfold days_of. rewrite !length_map, length_seq.
  pose proof (totalDays_of_range (budget f)). lia.
Qed.

(** X3.  With draws in [0,1) and an experience level [e] in [0..100], every
    activity costs between [5 * (100 + e)] and [35 * (100 + e)], and the
    total cost lies between the least and the greatest cost of
    [activityCount] such activities and one hotel night on each day; it is
    never below 9000 and never above 910000. *)
Theorem cost_bounds (draws : nat -> Q) (f : TripFormData) (n : nat) :
  (forall k, (0 <= draws k)%Q /\ (draws k < 1)%Q) ->
  0 <= experienceType f <= 100 ->
  exists plan hotel,
    generates draws f n plan
    /\ hotels plan = [hotel]%list
    /\ every_activity
         (fun a => 5 * (100 + experienceType f) <= cost a
                   <= 35 * (100 + experienceType f)) plan
    /\ totalDays plan
       * (Z.of_nat (activityCount_of (experienceType f))
          * (5 * (100 + experienceType f)) + pricePerNight hotel)
       <= totalCost plan
       <= totalDays plan
          * (Z.of_nat (activityCount_of (experienceType f))
             * (35 * (100 + experienceType f)) + pricePerNight hotel)
    /\ 9000 <= totalCost plan <= 910000.
Proof.
  intros Hdraws He.
  destruct (generateMockTripPlan_closed draws f n) as (h & Hh & G).
  eexists; exists h. unfold generates. rewrite G.
  split; [reflexivity|]. split; [reflexivity|].
  cbn [hotels dayPlans totalCost totalDays].
  pose proof (sum_Z_bounds _ _ _ (days_of_estimates draws f n Hdraws He))
    as Hsum.
  rewrite days_of_length in Hsum.
  pose proof (totalDays_of_range (budget f)) as Hdays.
  destruct (hotels_of_price _ _ _ He Hh) as (b & Hb & Hprice).
  pose proof (activityCount_of_range (experienceType f)) as Hcount.
  split; [|split].
  - unfold every_activity, days_of. cbn [dayPlans].
    apply Forall_forall. intros p Hp. apply in_map_iff in Hp.
    destruct Hp as (d & <- & _). unfold day_of.
    apply day_from_costs; assumption.
  - lia.
  - assert (1500 <= basePrice b <= 15000) by (destruct b; cbn; lia).
    nia.
Qed.

Lemma cost_bounds_witness :
  exists plan hotel,
    generates quarter_draws (request 100) 0 plan
    /\ hotels plan = [hotel]%list
    /\ every_activity (fun a => 1000 <= cost a <= 7000) plan
    /\ totalDays plan * (5 * 1000 + pricePerNight hotel)
       <= totalCost plan
       <= totalDays plan * (5 * 7000 + pricePerNight hotel)
    /\ 9000 <= totalCost plan <= 910000.
Proof.
  apply (cost_bounds quarter_draws (request 100) 0).
  - intros k. unfold quarter_draws, Qle, Qlt. cbn [Qnum Qden].
    pose proof (Nat.mod_upper_bound k 4). lia.
  - cbn; lia.
Defined.

Lemma totalDays_of_cases (b : Z) :
  (b < 32000 /\ totalDays_of b = 3)
  \/ (32000 <= b < 112000
      /\ 8000 * totalDays_of b <= b < 8000 * (totalDays_of b + 1))
  \/ (112000 <= b /\ totalDays_of b = 14).
Proof.
  rewrite totalDays_of_clamp. unfold clamp.
  assert (Hb : b = 8000 * (b / 8000) + b mod 8000)
    by (apply Z.div_mod; lia).
  assert (Hr : 0 <= b mod 8000 < 8000) by (apply Z.mod_pos_bound; lia).
  generalize dependent (b / 8000). generalize dependent (b mod 8000).
  intros r Hr q Hb.
  destruct (Z.ltb_spec q 3); [left; lia|].
  destruct (Z.ltb_spec 14 q); [right; right; lia|].
  assert (q = 3 \/ q = 14 \/ 3 < q < 14) as [E|[E|E]] by lia.
  - left. lia.
  - right; right. lia.
  - right; left. lia.
Qed.

(** X4.  The budget sets the number of days and nothing else: the total
    cost is not held below it.  With draws in [0,1) and a level in [0..100],
    the plan costs more than the budget whenever the budget is below 9000,
    and, for a level above 75, whenever it is below 431200. *)
Theorem total_cost_exceeds_budget (draws : nat -> Q) (f : TripFormData)
    (n : nat) :
  (forall k, (0 <= draws k)%Q /\ (draws k < 1)%Q) ->
  0 <= experienceType f <= 100 ->
  budget f < 9000 \/ (75 < experienceType f /\ budget f < 431200) ->
  exists plan,
    generates draws f n plan
    /\ budget f < totalCost plan.
Proof.
  intros Hdraws He Hb.
  destruct (generateMockTripPlan_closed draws f n) as (h & Hh & G).
  eexists. unfold generates. rewrite G. split; [reflexivity|].
  cbn [totalCost].
  pose proof (sum_Z_bounds _ _ _ (days_of_estimates draws f n Hdraws He))
    as Hsum.
  rewrite days_of_length in Hsum.
  pose proof (totalDays_of_range (budget f)) as Hdays.
  destruct (hotels_of_price _ _ _ He Hh) as (b & Hb' & Hprice).
  pose proof (activityCount_of_range (experienceType f)) as Hcount.
  destruct Hb as [Hb | (Hlux & Hb)].
  - assert (1500 <= basePrice b) by (destruct b; cbn; lia). nia.
  - assert (Hc : activityCount_of (experienceType f) = 5%nat).
    { unfold activityCount_of.
      destruct (Z.leb_spec (experienceType f) 25); [lia|].
      destruct (Z.leb_spec (experienceType f) 75); [lia|]. reflexivity. }
    assert (Hbase : basePrice b = 15000).
    { unfold band in Hb'.
      destruct (Z.ltb_spec (experienceType f) 0); [lia|].
      destruct (Z.ltb_spec 100 (experienceType f)); [lia|]. cbn [orb] in Hb'.
      destruct (Z.leb_spec (experienceType f) 25); [lia|].
      destruct (Z.leb_spec (experienceType f) 50); [lia|].
      destruct (Z.leb_spec (experienceType f) 75); [lia|].
      injection Hb' as <-. reflexivity. }
    rewrite Hc in Hsum. rewrite Hbase in Hprice.
    assert (Hp : 26400 <= pricePerNight h) by lia.
    assert (Hs : totalDays_of (budget f) * 4400
                 <= sum_Z (map estimatedCost (days_of draws f n))) by nia.
    destruct (totalDays_of_cases (budget f)) as [(?&?)|[(?&?)|(?&?)]]; nia.
Qed.

Lemma total_cost_exceeds_budget_witness :
  (exists plan,
     generates quarter_draws
       (mkTripFormData "Goa" (Some 0) 4 5000 0) 0 plan
     /\ 5000 < totalCost plan)
  /\ (exists plan,
        generates quarter_draws
          (mkTripFormData "Goa" (Some 0) 4 400000 100) 0 plan
        /\ 400000 < totalCost plan).
Proof.
  assert (Hq : forall k, (0 <= quarter_draws k)%Q /\ (quarter_draws k < 1)%Q).
  { intros k. unfold quarter_draws, Qle, Qlt. cbn [Qnum Qden].
    pose proof (Nat.mod_upper_bound k 4). lia. }
  split.
  - apply (total_cost_exceeds_budget quarter_draws
             (mkTripFormData "Goa" (Some 0) 4 5000 0) 0 Hq);
      cbn; lia.
  - apply (total_cost_exceeds_budget quarter_draws
             (mkTripFormData "Goa" (Some 0) 4 400000 100) 0 Hq);
      cbn; lia.
Defined.

(** X5.  The party size is not checked.  For a request with nobody in it
    ([people = 0]), with draws in [0,1) and a level in [0..100], the call
    still returns the success variant, and the cost per person of its plan is
    [Infinity]. *)
Theorem nobody_costs_infinity (draws : nat -> Q) (f : TripFormData)
    (n : nat) :
  (forall k, (0 <= draws k)%Q /\ (draws k < 1)%Q) ->
  0 <= experienceType f <= 100 ->
  people f = 0 ->
  exists plan,
    fst (generateTripPlan draws f n)
    = {| success := true; data := Some plan; error := None |}
    /\ costPerPerson plan = Infinity.
Proof.
  intros Hdraws He Hp.
  destruct (generateMockTripPlan_closed draws f n) as (h & Hh & G).
  eexists. unfold generateTripPlan, bind. rewrite G.
  split; [reflexivity|]. cbn [costPerPerson]. rewrite Hp.
  pose proof (sum_Z_bounds _ _ _ (days_of_estimates draws f n Hdraws He))
    as Hsum.
  rewrite days_of_length in Hsum.
  pose proof (totalDays_of_range (budget f)) as Hdays.
  destruct (hotels_of_price _ _ _ He Hh) as (b & Hb' & Hprice).
  pose proof (activityCount_of_range (experienceType f)) as Hcount.
  assert (1500 <= basePrice b) by (destruct b; cbn; lia).
  set (total := sum_Z (map estimatedCost (days_of draws f n))
                + pricePerNight h * totalDays_of (budget f)).
  assert (Htotal : 0 < total) by (unfold total; nia).
  unfold JS.div. cbn [Z.eqb].
  destruct (Z.eqb_spec total 0); [lia|].
  destruct (Z.ltb_spec 0 total); [reflexivity | lia].
Qed.

Lemma nobody_costs_infinity_witness :
  exists plan,
    fst (generateTripPlan quarter_draws
           (mkTripFormData "Goa" None 0 50000 25) 0%nat)
    = {| success := true; data := Some plan; error := None |}
    /\ costPerPerson plan = Infinity.
Proof.
  apply (nobody_costs_infinity quarter_draws
           (mkTripFormData "Goa" None 0 50000 25) 0%nat).
  - intros k. unfold quarter_draws, Qle, Qlt. cbn [Qnum Qden].
    pose proof (Nat.mod_upper_bound k 4). lia.
  - cbn; lia.
  - reflexivity.
Defined.

(** ** Categories, themes and names of the days *)

Lemma days_of_Forall (draws : nat -> Q) (f : TripFormData) (n : nat)
    (P : DayPlan -> Prop) :
  (forall d k, (1 <= d <= Z.to_nat (totalDays_of (budget f)))%nat ->
               P (day_from draws (destination f) (experienceType f) d k)) ->
  Forall P (days_of draws f n).
Proof.
  intros H. unfold days_of. apply Forall_forall. intros p Hp.
  apply in_map_iff in Hp. destruct Hp as (d & <- & Hd).
  apply in_seq in Hd. unfold day_of. apply H. lia.
Qed.

Lemma day_from_categories (draws : nat -> Q) (dest : string) (e : Z)
    (d k : nat) :
  map category (activities (day_from draws dest e d k))
  = firstn (activityCount_of e) categories.
Proof.
  cbn [day_from activities]. rewrite map_map. cbn [activity_of category].
  unfold activityCount_of.
  destruct (e <=? 25); [|destruct (e <=? 75)]; reflexivity.
Qed.

(** X6.  The categories of a day are the first 3, 4 or 5 of the six labels,
    in their order, whatever the theme of the day: no two activities of a
    day share a category, and the sixth label, "Wellness", is never given. *)
Theorem categories_of_a_day (draws : nat -> Q) (f : TripFormData) (n : nat) :
  exists plan,
    generates draws f n plan
    /\ dayPlans plan <> nil
    /\ Forall (fun p => map category (activities p)
                        = firstn (List.length (activities p))
                            [ "Cultural"; "Adventure"; "Food & Drink";
                              "Sightseeing"; "Entertainment"; "Wellness" ]
                        /\ NoDup (map category (activities p)))
         (dayPlans plan)
    /\ every_activity (fun a => category a <> "Wellness") plan.
Proof.
  destruct (generateMockTripPlan_closed draws f n) as (h & Hh & G).
  eexists. unfold generates. rewrite G. split; [reflexivity|].
  cbn [dayPlans]. split; [|split].
  - apply (days_not_nil (budget f)). unfold days_of.
    rewrite length_map, length_seq. reflexivity.
  - apply days_of_Forall. intros d k _.
    rewrite day_from_categories.
    cbn [day_from activities]. rewrite length_map, length_seq.
    split; [reflexivity|].
    unfold activityCount_of.
    destruct (experienceType f <=? 25);
      [|destruct (experienceType f <=? 75)];
      cbn; repeat constructor; cbn; intuition discriminate.
  - unfold every_activity. cbn [dayPlans].
    apply days_of_Forall. intros d k _.
    assert (Hcat : Forall (fun c => c <> "Wellness")
                     (map category
                        (activities
                           (day_from draws (destination f) (experienceType f)
                              d k)))).
    { rewrite day_from_categories. unfold activityCount_of.
      destruct (experienceType f <=? 25);
        [|destruct (experienceType f <=? 75)];
        cbn; repeat constructor; discriminate. }
    exact (proj1 (Forall_map category (fun c : string => c <> "Wellness") _)
             Hcat).
Qed.

Lemma themes_of_days (count : nat) :
  (count <= 16)%nat ->
  map (fun d => cyclic_at themes (d - 1)%nat) (seq 1 count)
  = firstn count (themes ++ themes)%list.
Proof.
  intros H.
  do 17 (destruct count as [|count]; [reflexivity|]). lia.
Qed.

(** X7.  The themes of the days of a plan are the first [totalDays] of the
    eight themes, taken twice over: day 9 starts again at
    "Arrival & City Exploration".  The last day of a plan has the theme
    "Departure & Last Moments" exactly when the plan has 8 days. *)
Theorem themes_of_a_plan (draws : nat -> Q) (f : TripFormData) (n : nat) :
  exists plan,
    generates draws f n plan
    /\ map theme (dayPlans plan)
       = firstn (Z.to_nat (totalDays plan)) (themes ++ themes)%list
    /\ (last (map theme (dayPlans plan)) "" = "Departure & Last Moments"
        <-> totalDays plan = 8).
Proof.
  destruct (generateMockTripPlan_closed draws f n) as (h & Hh & G).
  eexists. unfold generates. rewrite G. split; [reflexivity|].
  cbn [dayPlans totalDays].
  assert (Hthemes : map theme (days_of draws f n)
                    = firstn (Z.to_nat (totalDays_of (budget f)))
                        (themes ++ themes)%list).
  { unfold days_of. rewrite map_map. cbn [day_of day_from theme].
    apply themes_of_days. pose proof (totalDays_of_range (budget f)). lia. }
  split; [exact Hthemes|]. rewrite Hthemes.
  pose proof (totalDays_of_range (budget f)) as Hr.
  assert (Hc : totalDays_of (budget f) = 3 \/ totalDays_of (budget f) = 4
               \/ totalDays_of (budget f) = 5 \/ totalDays_of (budget f) = 6
               \/ totalDays_of (budget f) = 7 \/ totalDays_of (budget f) = 8
               \/ totalDays_of (budget f) = 9 \/ totalDays_of (budget f) = 10
               \/ totalDays_of (budget f) = 11 \/ totalDays_of (budget f) = 12
               \/ totalDays_of (budget f) = 13
               \/ totalDays_of (budget f) = 14) by lia.
  repeat (destruct Hc as [Hc|Hc]);
    rewrite Hc; cbn; (split; intros E; [try discriminate E | try lia]);
    reflexivity.
Qed.

Lemma day_from_names (draws : nat -> Q) (dest : string) (e : Z) (d k : nat) :
  day_names (day_from draws dest e d k)
  = map (append (tier_prefix e))
        (map (cyclic_at (baseActivities dest (cyclic_at themes (d - 1)%nat)))
             (seq 0 (activityCount_of e))).
Proof.
  unfold day_names. cbn [day_from activities]. rewrite !map_map.
  apply map_ext. intros i. cbn [activity_of name].
  apply generateActivityName_prefix.
Qed.

(** X8.  Only the first four themes have activity names of their own.  On
    days 5 to 8 and from day 13 on, the names are the four generic ones in
    their order, with the prefix of the level: these days all have the same
    activity names, and the destination is in none of them.  A plan has such
    a day as soon as the budget reaches 40000. *)
Theorem generic_names_from_day_five (draws : nat -> Q) (f : TripFormData)
    (n : nat) :
  exists plan,
    generates draws f n plan
    /\ Forall (fun p =>
                 5 <= day p <= 8 \/ 13 <= day p ->
                 day_names p
                 = map (append (tier_prefix (experienceType f)))
                       (map (cyclic_at
                               [ "City Tour"; "Local Experience";
                                 "Cultural Visit"; "Scenic Tour" ])
                            (seq 0 (List.length (activities p)))))
         (dayPlans plan)
    /\ (40000 <= budget f ->
        exists p, nth_error (dayPlans plan) 4 = Some p /\ day p = 5).
Proof.
  destruct (generateMockTripPlan_closed draws f n) as (h & Hh & G).
  eexists. unfold generates. rewrite G. split; [reflexivity|].
  cbn [dayPlans]. split.
  - apply days_of_Forall. intros d k Hd Hday.
    rewrite day_from_names.
    cbn [day_from day activities] in *.
    rewrite length_map, length_seq.
    pose proof (totalDays_of_range (budget f)) as Hr.
    assert (Hc : (d = 5 \/ d = 6 \/ d = 7 \/ d = 8 \/ d = 13 \/ d = 14)%nat)
      by lia.
    destruct Hc as [-> | [-> | [-> | [-> | [-> | ->]]]]]; reflexivity.
  - intros Hb. eexists. split.
    + unfold days_of. apply map_nth_error.
      rewrite nth_error_seq_in; [reflexivity|].
      destruct (totalDays_of_cases (budget f)) as [(?&?)|[(?&?)|(?&?)]]; lia.
    + reflexivity.
Qed.

Lemma generic_names_from_day_five_witness :
  exists plan p q,
    generates quarter_draws (request 60) 0 plan
    /\ nth_error (dayPlans plan) 4 = Some p
    /\ nth_error (dayPlans plan) 7 = Some q
    /\ day_names p
       = [ "Premium City Tour"; "Premium Local Experience";
           "Premium Cultural Visit"; "Premium Scenic Tour" ]%list
    /\ day_names q = day_names p.
Proof.
  destruct (generic_names_from_day_five quarter_draws (request 60) 0)
    as (plan & G & Hall & H5).
  destruct H5 as (p & Hp & Hday); [cbn; lia|].
  assert (Hq : exists q, nth_error (dayPlans plan) 7 = Some q /\ day q = 8).
  { unfold generates in G. vm_compute in G. injection G as <-.
    eexists; split; reflexivity. }
  destruct Hq as (q & Hq & Hdayq).
  exists plan, p, q. split; [exact G|]. split; [exact Hp|].
  split; [exact Hq|].
  pose proof (proj1 (Forall_forall _ _) Hall p (nth_error_In _ _ Hp)) as Np.
  pose proof (proj1 (Forall_forall _ _) Hall q (nth_error_In _ _ Hq)) as Nq.
  cbn beta in Np, Nq.
  assert (Lp : List.length (activities p) = 4%nat).
  { unfold generates in G. vm_compute in G. injection G as <-.
    cbn in Hp. injection Hp as <-. reflexivity. }
  assert (Lq : List.length (activities q) = 4%nat).
  { unfold generates in G. vm_compute in G. injection G as <-.
    cbn in Hq. injection Hq as <-. reflexivity. }
  rewrite Lp in Np. rewrite Lq in Nq.
  rewrite Np, Nq by lia. split; reflexivity.
Defined.

(** ** Names that repeat, and names that do not *)

Ltac peel dest H :=
  repeat (destruct dest as [|? dest]; cbn in H;
          [ discriminate H
          | first [discriminate H | injection H as _ H] ]).

Lemma walking_tour_not_visit (dest : string) :
  dest ++ " Walking Tour" <> "Historic City Center Visit".
Proof. intros H. peel dest H. Qed.

Lemma walking_tour_not_dinner (dest : string) :
  dest ++ " Walking Tour" <> "Local Orientation & Welcome Dinner".
Proof. intros H. peel dest H. Qed.

Lemma walking_tour_not_viewpoint (dest : string) :
  dest ++ " Walking Tour" <> "Sunset Viewpoint Tour".
Proof. intros H. peel dest H. Qed.

Lemma append_injective (p s t : string) : p ++ s = p ++ t -> s = t.
Proof.
  induction p as [|c p IH]; cbn; intros H; [exact H|].
  injection H as H. auto.
Qed.

Lemma baseActivities_NoDup (dest th : string) :
  NoDup (baseActivities dest th).
Proof.
  unfold baseActivities, activity_table, lookup.
  repeat match goal with
         | |- context [String.eqb ?a ?b] => destruct (String.eqb a b)
         end.
  - repeat constructor; cbn; try intuition discriminate.
    intros [H | [H | [H | []]]]; symmetry in H; revert H.
    + apply walking_tour_not_visit.
    + apply walking_tour_not_dinner.
    + apply walking_tour_not_viewpoint.
  - repeat constructor; cbn; intuition discriminate.
  - repeat constructor; cbn; intuition discriminate.
  - repeat constructor; cbn; intuition discriminate.
  - repeat constructor; cbn; intuition discriminate.
Qed.

Lemma prefixed_NoDup (p : string) (l : list string) :
  NoDup l -> NoDup (map (append p) l).
Proof.
  induction 1 as [|x l Hx Hl IH]; cbn; constructor; [|exact IH].
  intros Hin. apply in_map_iff in Hin. destruct Hin as (y & Hy & Hin).
  apply append_injective in Hy. subst y. contradiction.
Qed.

(** X9.  The names of the activities of a day are pairwise different
    exactly when the experience level is at most 75: with up to four
    activities each candidate of the theme is used once, whatever the
    destination, and with five the first one comes twice. *)
Theorem names_of_a_day_differ (draws : nat -> Q) (f : TripFormData)
    (n : nat) :
  exists plan,
    generates draws f n plan
    /\ dayPlans plan <> nil
    /\ Forall (fun p => NoDup (day_names p) <-> experienceType f <= 75)
         (dayPlans plan).
Proof.
  destruct (generateMockTripPlan_closed draws f n) as (h & Hh & G).
  eexists. unfold generates. rewrite G. split; [reflexivity|].
  cbn [dayPlans]. split.
  - apply (days_not_nil (budget f)). unfold days_of.
    rewrite length_map, length_seq. reflexivity.
  - apply days_of_Forall. intros d k _. rewrite day_from_names.
    pose proof (baseActivities_NoDup (destination f)
                  (cyclic_at themes (d - 1)%nat)) as Hnd.
    pose proof (baseActivities_length (destination f)
                  (cyclic_at themes (d - 1)%nat)) as Hlen.
    destruct (baseActivities (destination f) (cyclic_at themes (d - 1)%nat))
      as [|a [|b [|c [|x [|y rest]]]]]; try discriminate Hlen.
    unfold activityCount_of.
    destruct (Z.leb_spec (experienceType f) 25);
      [|destruct (Z.leb_spec (experienceType f) 75)].
    + split; [lia|]. intros _. apply prefixed_NoDup.
      change (NoDup [a; b; c]%list).
      apply (NoDup_app_remove_r [a; b; c]%list [x]%list). exact Hnd.
    + split; [lia|]. intros _. apply prefixed_NoDup. exact Hnd.
    + split; [|lia]. intros Hdup. exfalso.
      change (NoDup (map (append (tier_prefix (experienceType f)))
                       [a; b; c; x; a]%list)) in Hdup.
      cbn [map] in Hdup.
      apply NoDup_cons_iff in Hdup. destruct Hdup as (Hin & _).
      apply Hin. cbn. auto.
Qed.

(** ** The price of the hotel *)

Lemma band_price_monotone (e1 e2 : Z) (b1 b2 : Band) :
  e1 <= e2 -> band e1 = Some b1 -> band e2 = Some b2 ->
  basePrice b1 <= basePrice b2.
Proof.
  unfold band. intros He.
  destruct (Z.ltb_spec e1 0); [discriminate|].
  destruct (Z.ltb_spec 100 e1); [discriminate|].
  destruct (Z.ltb_spec e2 0); [discriminate|].
  destruct (Z.ltb_spec 100 e2); [discriminate|]. cbn [orb].
  destruct (Z.leb_spec e1 25); destruct (Z.leb_spec e1 50);
    destruct (Z.leb_spec e1 75); destruct (Z.leb_spec e2 25);
    destruct (Z.leb_spec e2 50); destruct (Z.leb_spec e2 75);
    try lia; intros [= <-] [= <-]; cbn; lia.
Qed.

(** X10.  Between levels 0 and 100 a higher experience level always gives a
    dearer hotel: the nightly price is strictly increasing in the level, from
    1500 at level 0 to 30000 at level 100, whatever the other fields of the
    requests. *)
Theorem hotel_price_increases (draws1 draws2 : nat -> Q)
    (f1 f2 : TripFormData) (n1 n2 : nat) :
  0 <= experienceType f1 ->
  experienceType f1 < experienceType f2 ->
  experienceType f2 <= 100 ->
  exists plan1 plan2 hotel1 hotel2,
    generates draws1 f1 n1 plan1
    /\ generates draws2 f2 n2 plan2
    /\ hotels plan1 = [hotel1]%list
    /\ hotels plan2 = [hotel2]%list
    /\ 1500 <= pricePerNight hotel1
    /\ pricePerNight hotel1 < pricePerNight hotel2
    /\ pricePerNight hotel2 <= 30000.
Proof.
  intros H0 Hlt H100.
  destruct (generateMockTripPlan_closed draws1 f1 n1) as (h1 & Hh1 & G1).
  destruct (generateMockTripPlan_closed draws2 f2 n2) as (h2 & Hh2 & G2).
  eexists; eexists; exists h1, h2. unfold generates. rewrite G1, G2.
  do 4 (split; [reflexivity|]).
  assert (He1 : 0 <= experienceType f1 <= 100) by lia.
  assert (He2 : 0 <= experienceType f2 <= 100) by lia.
  destruct (hotels_of_price _ _ _ He1 Hh1) as (b1 & Hb1 & Hp1).
  destruct (hotels_of_price _ _ _ He2 Hh2) as (b2 & Hb2 & Hp2).
  pose proof (band_price_monotone _ _ _ _ (Z.lt_le_incl _ _ Hlt) Hb1 Hb2).
  assert (1500 <= basePrice b1 <= 15000) by (destruct b1; cbn; lia).
  assert (1500 <= basePrice b2 <= 15000) by (destruct b2; cbn; lia).
  repeat split; nia.
Qed.

Lemma hotel_price_increases_witness :
  exists plan1 plan2 hotel1 hotel2,
    generates quarter_draws (request 50) 0 plan1
    /\ generates quarter_draws (request 51) 7 plan2
    /\ hotels plan1 = [hotel1]%list
    /\ hotels plan2 = [hotel2]%list
    /\ 1500 <= pricePerNight hotel1
    /\ pricePerNight hotel1 < pricePerNight hotel2
    /\ pricePerNight hotel2 <= 30000.
Proof.
  apply (hotel_price_increases quarter_draws quarter_draws
           (request 50) (request 51) 0 7); cbn; lia.
Defined.

(** ** The stored keys *)

Lemma getItem_setItem (key value : string) (st : Storage.t) :
  Storage.getItem key (Storage.setItem key value st) = Some value.
Proof.
  induction st as [|(k, v) st IH]; cbn.
  - now rewrite String.eqb_refl.
  - destruct (String.eqb key k) eqn:E; cbn; rewrite E; auto.
Qed.

Lemma getItem_setItem_other (key other value : string) (st : Storage.t) :
  other <> key ->
  Storage.getItem other (Storage.setItem key value st)
  = Storage.getItem other st.
Proof.
  intros Hne. induction st as [|(k, v) st IH]; cbn.
  - apply String.eqb_neq in Hne. now rewrite Hne.
  - destruct (String.eqb_spec key k) as [->|Hk]; cbn.
    + apply String.eqb_neq in Hne. now rewrite Hne.
    + now rewrite IH.
Qed.

Lemma setItem_present_length (key value v0 : string) (st : Storage.t) :
  Storage.getItem key st = Some v0 ->
  List.length (Storage.setItem key value st) = List.length st.
Proof.
  induction st as [|(k, v) st IH]; cbn; [discriminate|].
  destruct (String.eqb key k); cbn; auto.
Qed.

Lemma getApiKeys_saveApiKeys (geminiKey tavilyKey : string)
    (st : Storage.t) :
  getApiKeys (saveApiKeys geminiKey tavilyKey st)
  = {| gemini := Some geminiKey; tavily := Some tavilyKey |}.
Proof.
  unfold getApiKeys, saveApiKeys.
  rewrite getItem_setItem.
  rewrite getItem_setItem_other by discriminate.
  rewrite getItem_setItem. reflexivity.
Qed.

(** X11.  After [saveApiKeys] with two keys, [getApiKeys] returns these two
    keys, whatever was stored before; the values under all other names are
    as they were; and saving again replaces the two values without adding
    an entry.  On an empty storage [getApiKeys] returns two nulls. *)
Theorem saved_keys_are_read_back (geminiKey tavilyKey : string)
    (st : Storage.t) :
  getApiKeys (saveApiKeys geminiKey tavilyKey st)
  = {| gemini := Some geminiKey; tavily := Some tavilyKey |}
  /\ (forall other,
        other <> "gemini_api_key" -> other <> "tavily_api_key" ->
        Storage.getItem other (saveApiKeys geminiKey tavilyKey st)
        = Storage.getItem other st)
  /\ (forall g t,
        List.length (saveApiKeys g t (saveApiKeys geminiKey tavilyKey st))
        = List.length (saveApiKeys geminiKey tavilyKey st))
  /\ getApiKeys nil = {| gemini := None; tavily := None |}.
Proof.
  split; [apply getApiKeys_saveApiKeys|].
  unfold getApiKeys, saveApiKeys. split; [|split].
  - intros other H1 H2.
    rewrite getItem_setItem_other by exact H2.
    apply getItem_setItem_other. exact H1.
  - intros g t.
    rewrite (setItem_present_length _ _ tavilyKey).
    + apply (setItem_present_length _ _ geminiKey).
      rewrite getItem_setItem_other by discriminate.
      apply getItem_setItem.
    + rewrite getItem_setItem_other by discriminate.
      apply getItem_setItem.
  - reflexivity.
Qed.

Lemma saved_keys_are_read_back_witness :
  Storage.getItem "theme"
    (saveApiKeys "g-1" "t-1" [("theme", "dark"); ("tavily_api_key", "old")]%list)
  = Some "dark".
Proof.
  destruct (saved_keys_are_read_back "g-1" "t-1"
              [("theme", "dark"); ("tavily_api_key", "old")]%list)
    as (_ & Hother & _).
  rewrite Hother; [reflexivity | discriminate | discriminate].
Defined.

(** X12.  [handleSaveKeys] stores the two keys exactly as they were typed,
    untrimmed, and completes the setup, when neither is blank; when one is
    blank it leaves the storage as it was and does not complete the setup.
    The toast "Invalid API Keys" is never shown.  [handleSkipSetup] stores
    the two demo keys. *)
Theorem save_keys_as_typed (trim : string -> string)
    (geminiKey tavilyKey : string) (st : Storage.t) :
  let outcome := ApiKeySetup.handleSaveKeys trim geminiKey tavilyKey st in
  ApiKeySetup.toast outcome <> ApiKeySetup.InvalidApiKeys
  /\ (trim geminiKey <> "" /\ trim tavilyKey <> "" ->
      ApiKeySetup.setupComplete outcome = true
      /\ ApiKeySetup.toast outcome = ApiKeySetup.ApiKeysSaved
      /\ getApiKeys (ApiKeySetup.storage outcome)
         = {| gemini := Some geminiKey; tavily := Some tavilyKey |})
  /\ (trim geminiKey = "" \/ trim tavilyKey = "" ->
      outcome
      = {| ApiKeySetup.storage := st;
           ApiKeySetup.toast := ApiKeySetup.MissingApiKeys;
           ApiKeySetup.setupComplete := false |})
  /\ getApiKeys (ApiKeySetup.storage (ApiKeySetup.handleSkipSetup st))
     = {| gemini := Some "demo-gemini-key"; tavily := Some "demo-tavily-key" |}.
Proof.
  cbv zeta. unfold ApiKeySetup.handleSaveKeys, ApiKeySetup.handleSkipSetup,
    testApiConnection.
  destruct (String.eqb_spec (trim geminiKey) "") as [Eg|Eg];
    destruct (String.eqb_spec (trim tavilyKey) "") as [Et|Et];
    cbn [orb ApiKeySetup.toast ApiKeySetup.storage ApiKeySetup.setupComplete];
    (split; [discriminate|]);
    (split; [intros (Hg & Ht); try contradiction|]);
    try (split; [intros [Hg|Ht]; try contradiction; reflexivity|]);
    try apply getApiKeys_saveApiKeys.
  repeat split. apply getApiKeys_saveApiKeys.
Qed.

Lemma save_keys_as_typed_witness :
  getApiKeys
    (ApiKeySetup.storage
       (ApiKeySetup.handleSaveKeys trim_spaces " key-1 " "key-2" nil))
  = {| gemini := Some " key-1 "; tavily := Some "key-2" |}
  /\ ApiKeySetup.handleSaveKeys trim_spaces "   " "key-2" nil
     = {| ApiKeySetup.storage := nil;
          ApiKeySetup.toast := ApiKeySetup.MissingApiKeys;
          ApiKeySetup.setupComplete := false |}.
Proof.
  split.
  - destruct (save_keys_as_typed trim_spaces " key-1 " "key-2" nil)
      as (_ & Hsaved & _).
    apply Hsaved. split; discriminate.
  - destruct (save_keys_as_typed trim_spaces "   " "key-2" nil)
      as (_ & _ & Hblank & _).
    apply Hblank. left. reflexivity.
Defined.

(** ** The form *)

Lemma fold_closer (e : Z) (l : list TripPlannerForm.ExperienceType)
    (init : TripPlannerForm.ExperienceType) :
  let r := fold_left (TripPlannerForm.closer e) l init in
  (r = init \/ In r l)
  /\ Z.abs (TripPlannerForm.value r - e)
     <= Z.abs (TripPlannerForm.value init - e)
  /\ (forall u, In u l ->
                Z.abs (TripPlannerForm.value r - e)
                <= Z.abs (TripPlannerForm.value u - e)).
Proof.
  cbv zeta. revert init. induction l as [|x l IH]; intros init; cbn.
  - split; [auto|]. split; [lia|]. intros u [].
  - destruct (IH (TripPlannerForm.closer e init x)) as (Hin & Hle & Hall).
    assert (Hc : (TripPlannerForm.closer e init x = init
                  \/ TripPlannerForm.closer e init x = x)
                 /\ Z.abs (TripPlannerForm.value
                             (TripPlannerForm.closer e init x) - e)
                    <= Z.abs (TripPlannerForm.value init - e)
                 /\ Z.abs (TripPlannerForm.value
                             (TripPlannerForm.closer e init x) - e)
                    <= Z.abs (TripPlannerForm.value x - e)).
    { unfold TripPlannerForm.closer.
      destruct (Z.ltb_spec (Z.abs (TripPlannerForm.value x - e))
                  (Z.abs (TripPlannerForm.value init - e))); split; auto; lia. }
    destruct Hc as (Hc & Hci & Hcx).
    split; [|split].
    + destruct Hin as [-> | Hin]; [|auto].
      destruct Hc as [-> | ->]; auto.
    + lia.
    + intros u [<- | Hu]; [lia | auto].
Qed.

(** X13.  The experience type shown by the form is the entry of the table
    nearest to the level of the form, for every level: no entry is nearer.
    For a level in [0..100] it is the entry of value
    [25 * ((level + 12) / 25)]; on a step of the slider it is the entry of
    that very value. *)
Theorem nearest_experience_type (formData : TripFormData) :
  exists shown,
    TripPlannerForm.getCurrentExperienceType formData = Some shown
    /\ In shown TripPlannerForm.experienceTypes
    /\ (forall other,
          In other TripPlannerForm.experienceTypes ->
          Z.abs (TripPlannerForm.value shown - experienceType formData)
          <= Z.abs (TripPlannerForm.value other - experienceType formData))
    /\ (0 <= experienceType formData <= 100 ->
        TripPlannerForm.value shown
        = 25 * ((experienceType formData + 12) / 25)).
Proof.
  unfold TripPlannerForm.getCurrentExperienceType, TripPlannerForm.reduce,
    TripPlannerForm.experienceTypes.
  match goal with
  | |- context [fold_left ?f ?l ?init] =>
      destruct (fold_closer (experienceType formData) l init)
        as (Hin & Hle & Hall);
      set (shown := fold_left f l init) in *
  end.
  exists shown. split; [reflexivity|].
  assert (Hmem : In shown TripPlannerForm.experienceTypes).
  { destruct Hin as [-> | Hin]; [left; reflexivity | right; exact Hin]. }
  assert (Hmin : forall other,
            In other TripPlannerForm.experienceTypes ->
            Z.abs (TripPlannerForm.value shown - experienceType formData)
            <= Z.abs (TripPlannerForm.value other - experienceType formData)).
  { intros other [<- | Ho]; [exact Hle | apply Hall, Ho]. }
  split; [exact Hmem|]. split; [exact Hmin|].
  intros He.
  pose proof (Hmin _ (or_introl eq_refl)) as M0.
  pose proof (Hmin _ (or_intror (or_introl eq_refl))) as M1.
  pose proof (Hmin _ (or_intror (or_intror (or_introl eq_refl)))) as M2.
  pose proof (Hmin _ (or_intror (or_intror (or_intror (or_introl eq_refl)))))
    as M3.
  pose proof (Hmin _ (or_intror (or_intror (or_intror (or_intror
                        (or_introl eq_refl)))))) as M4.
  cbn [TripPlannerForm.value] in M0, M1, M2, M3, M4.
  pose proof (Z.div_mod (experienceType formData + 12) 25) as Hd.
  pose proof (Z.mod_pos_bound (experienceType formData + 12) 25) as Hm.
  unfold TripPlannerForm.experienceTypes in Hmem. cbn [In] in Hmem.
  destruct Hmem as [<- | [<- | [<- | [<- | [<- | []]]]]];
    cbn [TripPlannerForm.value] in *; lia.
Qed.

Lemma nearest_experience_type_witness :
  exists shown,
    TripPlannerForm.getCurrentExperienceType
      (mkTripFormData "Goa" None 2 50000 75) = Some shown
    /\ TripPlannerForm.value shown = 75
    /\ TripPlannerForm.label shown = "Luxury Seeker".
Proof.
  destruct (nearest_experience_type (mkTripFormData "Goa" None 2 50000 75))
    as (shown & Hshown & _ & _ & Hvalue).
  exists shown. split; [exact Hshown|]. split.
  - rewrite Hvalue; [reflexivity | cbn; lia].
  - cbn in Hshown. injection Hshown as <-. reflexivity.
Defined.

Lemma handle_people (formData : TripFormData)
    (ev : TripPlannerForm.FormEvent) :
  1 <= people formData <= 20 ->
  1 <= people (TripPlannerForm.handle formData ev) <= 20
  /\ Z.abs (people (TripPlannerForm.handle formData ev) - people formData)
     <= 1.
Proof.
  intros H. destruct ev; cbn [TripPlannerForm.handle people]; try lia.
  - destruct (Z.ltb_spec 1 (people formData)); cbn [people]; lia.
  - destruct (Z.ltb_spec (people formData) 20); cbn [people]; lia.
Qed.

(** X14.  Whatever the sequence of events on the controls of the form, the
    number of travellers stays between 1 and 20 when it starts there, as it
    does in the initial state of the form: the two buttons do nothing at the
    ends of the range, and the other controls leave the number alone. *)
Theorem travellers_stay_in_range (formData : TripFormData)
    (evs : list TripPlannerForm.FormEvent) :
  1 <= people formData <= 20 ->
  1 <= people (TripPlannerForm.handle_all formData evs) <= 20
  /\ Z.abs (people (TripPlannerForm.handle_all formData evs)
            - people formData)
     <= Z.of_nat (List.length evs).
Proof.
  unfold TripPlannerForm.handle_all. revert formData.
  induction evs as [|ev evs IH]; intros formData H.
  - cbn. lia.
  - cbn [fold_left List.length].
    destruct (handle_people formData ev H) as (H1 & Hstep).
    destruct (IH _ H1) as (H2 & Hrest).
    rewrite Nat2Z.inj_succ. lia.
Qed.

Lemma travellers_stay_in_range_witness :
  people
    (TripPlannerForm.handle_all TripPlannerForm.initialFormData
       [ TripPlannerForm.DecrementPeople; TripPlannerForm.DecrementPeople;
         TripPlannerForm.DecrementPeople; TripPlannerForm.BudgetChange 5000;
         TripPlannerForm.IncrementPeople ]%list)
  = 2
  /\ 1 <= people
            (TripPlannerForm.handle_all TripPlannerForm.initialFormData
               (repeat TripPlannerForm.IncrementPeople 30))
       <= 20.
Proof.
  split; [reflexivity|].
  apply (travellers_stay_in_range TripPlannerForm.initialFormData
           (repeat TripPlannerForm.IncrementPeople 30)).
  cbn; lia.
Defined.

(** X15.  [handleSubmit] calls [onPlanTrip] exactly when the trimmed
    destination is not empty and a date is set, and then with the data of
    the form unchanged (the destination is passed untrimmed).  Otherwise it
    only shows a toast: for the destination when that is blank, date or no
    date, and for the date otherwise. *)
Theorem submit_needs_destination_and_date (trim : string -> string)
    (formData : TripFormData) :
  (TripPlannerForm.handleSubmit trim formData
   = TripPlannerForm.OnPlanTrip formData
   <-> trim (destination formData) <> "" /\ date formData <> None)
  /\ (forall data,
        TripPlannerForm.handleSubmit trim formData
        = TripPlannerForm.OnPlanTrip data ->
        data = formData)
  /\ (trim (destination formData) = "" ->
      TripPlannerForm.handleSubmit trim formData
      = TripPlannerForm.MissingInformation "Please enter a destination")
  /\ (trim (destination formData) <> "" -> date formData = None ->
      TripPlannerForm.handleSubmit trim formData
      = TripPlannerForm.MissingInformation "Please select a travel date").
Proof.
  unfold TripPlannerForm.handleSubmit.
  destruct (String.eqb_spec (trim (destination formData)) "") as [E|E];
    destruct (date formData) as [when|];
    repeat split; try congruence; try tauto;
    try (intros H; discriminate H);
    try (intros (H1 & H2); congruence);
    try (intros data H; congruence).
Qed.

Lemma submit_needs_destination_and_date_witness :
  TripPlannerForm.handleSubmit trim_spaces
    (mkTripFormData " Goa" (Some 0) 2 50000 25)
  = TripPlannerForm.OnPlanTrip (mkTripFormData " Goa" (Some 0) 2 50000 25)
  /\ TripPlannerForm.handleSubmit trim_spaces
       (mkTripFormData "   " None 2 50000 25)
     = TripPlannerForm.MissingInformation "Please enter a destination"
  /\ TripPlannerForm.handleSubmit trim_spaces TripPlannerForm.initialFormData
     = TripPlannerForm.MissingInformation "Please enter a destination".
Proof.
  split; [|split].
  - apply (submit_needs_destination_and_date trim_spaces
             (mkTripFormData " Goa" (Some 0) 2 50000 25)).
    split; discriminate.
  - apply (submit_needs_destination_and_date trim_spaces
             (mkTripFormData "   " None 2 50000 25)).
    reflexivity.
  - apply (submit_needs_destination_and_date trim_spaces
             TripPlannerForm.initialFormData).
    reflexivity.
Defined.

(** ** The page *)

(** X16.  [handlePlanTrip] always ends on the results: whatever the state of
    the page and the submitted data, it leaves the page with the plan
    generated for these data, the data themselves, and the busy flag off;
    its one toast is "Trip Plan Ready!", "Planning Failed" is never shown;
    the page then renders the results without the hero.  After
    [handlePlanNewTrip] the plan and the data are gone and the page renders
    the form, not busy, with the hero. *)
Theorem plan_trip_shows_results (draws : nat -> Q) (submitted : TripFormData)
    (st : Index.PageState) (n : nat) :
  exists plan,
    generates draws submitted n plan
    /\ plan_destination plan = destination submitted
    /\ (let st' :=
          {| Index.hasApiKeys := Index.hasApiKeys st;
             Index.isGeneratingPlan := false;
             Index.tripPlan := Some plan;
             Index.formData := Some submitted |} in
        Index.handlePlanTrip draws submitted st n
        = ((st',
            [ Index.TripPlanReady
                ("Your " ++ destination submitted
                 ++ " adventure has been planned!") ]%list),
           (draws_read submitted + n)%nat)
        /\ Index.render st' = Index.ResultsView plan submitted
        /\ Index.heroShown st' = false
        /\ Index.render (Index.handlePlanNewTrip st') = Index.FormView false
        /\ Index.heroShown (Index.handlePlanNewTrip st') = true).
Proof.
  destruct (generateMockTripPlan_closed draws submitted n) as (h & Hh & G).
  eexists. unfold generates. rewrite G. split; [reflexivity|].
  split; [reflexivity|]. cbv zeta.
  split; [|repeat split].
  unfold Index.handlePlanTrip, generateTripPlan, bind. rewrite G.
  reflexivity.
Qed.
